(** * LSTM cells of [lstm/lstm.py]: a shallow embedding

    The source is a JAX program.  Arrays of rank two are lists of rows; the
    arithmetic of the elements is kept abstract (a type class without laws,
    so that nothing is assumed that floating point arithmetic does not
    satisfy); Python exceptions are the [Raise] results of an error monad.

    Two limits of the model.  A list of rows does not record the number of
    columns of an array without rows, so the statements about shapes ask for
    positive dimensions.  [jax.lax.scan] and [jax.vmap] trace their function
    once, whatever the length of the axis they run over; [scan] and the
    typed batch map below describe the values computed step by step, and the
    statements about them are for parameters and inputs of consistent
    shapes, where tracing and stepping agree. *)

From Stdlib Require Import String ZArith QArith Lia Bool List.
Import ListNotations.

Set Implicit Arguments.
Set Warnings "-register-all".
Local Open Scope nat_scope.

(** ** Exceptions and the error monad *)

Inductive exn : Type :=
| TypeError
| ValueError
| IndexError
| AttributeError
| AssertionError
| UnboundLocalError.

Inductive result (X : Type) : Type :=
| Ok (x : X)
| Raise (e : exn).

Arguments Ok {X} x.
Arguments Raise {X} e.

Definition bind {X Y : Type} (r : result X) (k : X -> result Y) : result Y :=
  match r with
  | Ok x => k x
  | Raise e => Raise e
  end.

Notation "x <- r ;; k" := (bind r (fun x => k))
  (at level 61, r at next level, right associativity).
Notation "' p <- r ;; k" := (bind r (fun p => k))
  (at level 61, p pattern, r at next level, right associativity).

Definition raises {X : Type} (r : result X) : Prop :=
  exists e, r = Raise e.

Fixpoint mapM {X Y : Type} (f : X -> result Y) (l : list X) : result (list Y) :=
  match l with
  | [] => Ok []
  | x :: l' => y <- f x ;; ys <- mapM f l' ;; Ok (y :: ys)
  end.

(** ** Element arithmetic *)

Class Num (A : Type) : Type := {
  zero : A;
  add : A -> A -> A;
  sub : A -> A -> A;
  mul : A -> A -> A;
  div : A -> A -> A;
  of_nat : nat -> A
}.

(** [sigmoid] comes from the [utils] module and [tanh] from [jax.numpy];
    both are elementwise functions on the elements. *)
Class Activation (A : Type) : Type := {
  sigmoid : A -> A;
  tanh : A -> A
}.

(** ** Arrays of rank two *)

Definition matrix (A : Type) : Type := list (list A).

Section Arrays.
Context {A : Type} `{Num A}.

Definition nrows (m : matrix A) : nat := length m.

Definition ncols (m : matrix A) : nat :=
  match m with
  | [] => 0
  | r :: _ => length r
  end.

(** [m] is rectangular with [r] rows and [c] columns. *)
Definition has_shape (r c : nat) (m : matrix A) : Prop :=
  length m = r /\ Forall (fun row => length row = c) m.

Definition rectangular (m : matrix A) : bool :=
  forallb (fun row => length row =? ncols m) m.

Definition zeros (r c : Z) : result (matrix A) :=
  if ((r <? 0) || (c <? 0))%Z then Raise TypeError
  else Ok (repeat (repeat zero (Z.to_nat c)) (Z.to_nat r)).

Definition column (j : nat) (m : matrix A) : list A :=
  map (fun row => nth j row zero) m.

Fixpoint dot (u v : list A) : A :=
  match u, v with
  | a :: u', b :: v' => add (mul a b) (dot u' v')
  | _, _ => zero
  end.

(** [a @ b]: the contracted dimensions must agree. *)
Definition matmul (a b : matrix A) : result (matrix A) :=
  if rectangular a && rectangular b && (ncols a =? nrows b) then
    Ok (map (fun row => map (fun j => dot row (column j b)) (seq 0 (ncols b))) a)
  else Raise TypeError.

(** NumPy broadcasting along one axis: equal lengths are zipped, a length
    of one is stretched, anything else is an error. *)
Fixpoint zipM {X Y : Type} (f : X -> X -> result Y) (xs ys : list X)
  : result (list Y) :=
  match xs, ys with
  | [], [] => Ok []
  | x :: xs', y :: ys' => z <- f x y ;; zs <- zipM f xs' ys' ;; Ok (z :: zs)
  | _, _ => Raise ValueError
  end.

Definition broadcast {X Y : Type} (f : X -> X -> result Y) (xs ys : list X)
  : result (list Y) :=
  if length xs =? length ys then zipM f xs ys
  else match xs, ys with
       | [x], _ => mapM (fun y => f x y) ys
       | _, [y] => mapM (fun x => f x y) xs
       | _, _ => Raise ValueError
       end.

Definition elementwise (op : A -> A -> A) (a b : matrix A) : result (matrix A) :=
  broadcast (broadcast (fun x y => Ok (op x y))) a b.

Definition madd : matrix A -> matrix A -> result (matrix A) := elementwise add.
Definition msub : matrix A -> matrix A -> result (matrix A) := elementwise sub.
Definition mmul : matrix A -> matrix A -> result (matrix A) := elementwise mul.

Definition mmap (f : A -> A) (m : matrix A) : matrix A := map (map f) m.

(** [jnp.concatenate(ms, axis=0)]: the column counts must agree. *)
Fixpoint concatenate0 (ms : list (matrix A)) : result (matrix A) :=
  match ms with
  | [] => Raise ValueError
  | [m] => Ok m
  | m :: ms' =>
      rest <- concatenate0 ms' ;;
      if ncols m =? ncols rest then Ok (m ++ rest) else Raise TypeError
  end.
End Arrays.

(** ** Parameter containers

    [LSTMParams] and [LSTMArchiParams] are declared in [utils]; their fields
    are those the constructor calls of [LSTM.init_params] fill, in order. *)

Inductive prng_key : Type :=
| PRNGKey (seed : Z).

Record LSTMArchiParams : Type := mkArchi {
  key : prng_key;
  input_dim : Z;
  hidden_dim : Z;
  output_dim : Z
}.

Record LSTMParams (A : Type) : Type := mkParams {
  wf : matrix A; uf : matrix A; bf : matrix A;
  wi : matrix A; ui : matrix A; bi : matrix A;
  wc : matrix A; uc : matrix A; bc : matrix A;
  wo : matrix A; uo : matrix A; bo : matrix A;
  wout : matrix A
}.

(** ** [jax.lax.scan] and the array helpers of ranks three to five *)

Section Scan.
Context {C X Y : Type}.

Fixpoint scan (f : C -> X -> result (C * Y)) (carry : C) (xs : list X)
  : result (C * list Y) :=
  match xs with
  | [] => Ok (carry, [])
  | x :: xs' =>
      '(carry', y) <- f carry x ;;
      '(final, ys) <- scan f carry' xs' ;;
      Ok (final, y :: ys)
  end.
End Scan.

(** [x[0]] on the leading axis. *)
Definition index0 {X : Type} (x : list X) : result X :=
  match x with
  | [] => Raise IndexError
  | x0 :: _ => Ok x0
  end.

Section Rank3.
Context {A : Type} `{Num A}.

(** Dropping a last axis of length one from one row. *)
Definition squeeze_row (row : list A) : result A :=
  match row with
  | [a] => Ok a
  | _ => Raise ValueError
  end.

(** [jnp.squeeze(t, axis=3)] on an array of rank four. *)
Definition squeeze3 (t : list (list (matrix A))) : result (list (matrix A)) :=
  mapM (mapM (mapM squeeze_row)) t.

Definition sub3 (a b : list (matrix A)) : result (list (matrix A)) :=
  broadcast (broadcast (broadcast (fun x y => Ok (sub x y)))) a b.

(** [t ** 2] *)
Definition square3 (t : list (matrix A)) : list (matrix A) :=
  map (map (map (fun x => mul x x))) t.

Definition flatten3 (t : list (matrix A)) : list A :=
  concat (map (@concat A) t).

Definition sum (l : list A) : A := fold_left add l zero.

(** [jnp.mean]: the sum of all the elements over their number. *)
Definition mean (l : list A) : A := div (sum l) (of_nat (length l)).
Definition mean3 (t : list (matrix A)) : A := mean (flatten3 t).
End Rank3.

(** ** class LSTM *)

Module LSTM.
Section Cell.
Context {A : Type} `{Num A} `{Activation A}.

Definition f_cur (params : LSTMParams A) (x_cur h_prev : matrix A)
  : result (matrix A) :=
  a <- matmul (uf params) h_prev ;;
  b <- matmul (wf params) x_cur ;;
  s <- madd a b ;;
  t <- madd s (bf params) ;;
  Ok (mmap sigmoid t).

Definition i_cur (params : LSTMParams A) (x_cur h_prev : matrix A)
  : result (matrix A) :=
  a <- matmul (ui params) h_prev ;;
  b <- matmul (wi params) x_cur ;;
  s <- madd a b ;;
  t <- madd s (bi params) ;;
  Ok (mmap sigmoid t).

Definition c_cur_hat (params : LSTMParams A) (x_cur h_prev : matrix A)
  : result (matrix A) :=
  a <- matmul (uc params) h_prev ;;
  b <- matmul (wc params) x_cur ;;
  s <- madd a b ;;
  t <- madd s (bc params) ;;
  Ok (mmap tanh t).

Definition c_cur (params : LSTMParams A) (x_cur h_prev c_prev : matrix A)
  : result (matrix A) :=
  i_t <- i_cur params x_cur h_prev ;;
  c_t_hat <- c_cur_hat params x_cur h_prev ;;
  f_t <- f_cur params x_cur h_prev ;;
  keep <- mmul f_t c_prev ;;
  write <- mmul i_t c_t_hat ;;
  madd keep write.

Definition o_cur (params : LSTMParams A) (x_cur h_prev : matrix A)
  : result (matrix A) :=
  a <- matmul (uo params) h_prev ;;
  b <- matmul (wo params) x_cur ;;
  s <- madd a b ;;
  t <- madd s (bo params) ;;
  Ok (mmap sigmoid t).

Definition h_cur (params : LSTMParams A) (x_cur h_prev c_prev : matrix A)
  : result (matrix A * matrix A) :=
  o_t <- o_cur params x_cur h_prev ;;
  c_t <- c_cur params x_cur h_prev c_prev ;;
  h_t <- mmul o_t (mmap tanh c_t) ;;
  Ok (h_t, c_t).

Definition forward (tup : LSTMParams A * matrix A * matrix A) (x_cur : matrix A)
  : result (LSTMParams A * matrix A * matrix A * matrix A) :=
  let '(params, h_prev, c_prev) := tup in
  '(h_t, c_t) <- h_cur params x_cur h_prev c_prev ;;
  out_t <- matmul (wout params) h_t ;;
  Ok ((params, h_t, c_t), out_t).

(** [x_in] has a leading axis of which only the first entry is scanned. *)
Definition forward_full (archi_params : LSTMArchiParams) (params : LSTMParams A)
    (x_in : list (list (matrix A))) : result (list (matrix A)) :=
  h <- zeros (hidden_dim archi_params) 1 ;;
  c <- zeros (hidden_dim archi_params) 1 ;;
  xs <- index0 x_in ;;
  '(_, out_ls) <- scan forward (params, h, c) xs ;;
  Ok out_ls.

(** [jax.vmap] over the leading axis of [x_batch], then the unit axis is
    squeezed away. *)
Definition forward_batch (archi_params : LSTMArchiParams) (params : LSTMParams A)
    (x_batch : list (list (list (matrix A)))) : result (list (matrix A)) :=
  outs <- mapM (forward_full archi_params params) x_batch ;;
  squeeze3 outs.

Definition mse (archi_params : LSTMArchiParams) (params : LSTMParams A)
    (x_batch : list (list (list (matrix A)))) (y_batch : list (matrix A))
  : result A :=
  batch_out <- forward_batch archi_params params x_batch ;;
  d <- sub3 batch_out y_batch ;;
  Ok (mean3 (square3 d)).
End Cell.
End LSTM.

(** ** Parameter initialisation

    [rng_normal] is a function of [utils]; it is taken as a parameter: a
    function of the key and of the requested shape that may raise. *)

Section Init.
Context {A : Type}.
Variable rng_normal : prng_key -> Z * Z -> result (matrix A).

Definition LSTM_init_params (seed input_dim hidden_dim output_dim : Z)
  : result (LSTMArchiParams * LSTMParams A) :=
  let key := PRNGKey seed in
  wf <- rng_normal key (hidden_dim, input_dim) ;;
  uf <- rng_normal key (hidden_dim, hidden_dim) ;;
  bf <- rng_normal key (hidden_dim, 1%Z) ;;
  wi <- rng_normal key (hidden_dim, input_dim) ;;
  ui <- rng_normal key (hidden_dim, hidden_dim) ;;
  bi <- rng_normal key (hidden_dim, 1%Z) ;;
  wc <- rng_normal key (hidden_dim, input_dim) ;;
  uc <- rng_normal key (hidden_dim, hidden_dim) ;;
  bc <- rng_normal key (hidden_dim, 1%Z) ;;
  wo <- rng_normal key (hidden_dim, input_dim) ;;
  uo <- rng_normal key (hidden_dim, hidden_dim) ;;
  bo <- rng_normal key (hidden_dim, 1%Z) ;;
  wout <- rng_normal key (output_dim, hidden_dim) ;;
  Ok (mkArchi key input_dim hidden_dim output_dim,
      mkParams wf uf bf wi ui bi wc uc bc wo uo bo wout).

(** [PeepholeLSTM] does not override [init_params]. *)
Definition PeepholeLSTM_init_params := LSTM_init_params.

Record LSTMModelParams : Type := mkModel {
  num_lstm : Z;
  lstm_type : string;
  layers : list (LSTMArchiParams * LSTMParams A)
}.

Definition LSTMModel_init_params
    (input_dim hidden_dim output_dim num_lstm : Z) (lstm_type : string) (seed : Z)
  : result LSTMModelParams :=
  if (num_lstm <? 1)%Z then Raise AssertionError
  else if String.eqb lstm_type "vanilla" then
    layers <- mapM (fun _ => LSTM_init_params seed input_dim hidden_dim output_dim)
                   (seq 0 (Z.to_nat num_lstm)) ;;
    Ok (mkModel num_lstm lstm_type layers)
  else if String.eqb lstm_type "peephole" then
    layers <- mapM (fun _ => PeepholeLSTM_init_params seed input_dim hidden_dim output_dim)
                   (seq 0 (Z.to_nat num_lstm)) ;;
    Ok (mkModel num_lstm lstm_type layers)
  else Raise ValueError.
End Init.

(** ** Dynamically typed values and calls

    [PeepholeLSTM] calls the static methods of [LSTM] with argument lists of
    its own; a Python call checks the number of positional arguments before
    the body runs. *)

Inductive tensor (A : Type) : Type :=
| Scalar (a : A)
| Axis (items : list (tensor A)).

Arguments Scalar {A} a.
Arguments Axis {A} items.

Inductive pyobj (A : Type) : Type :=
| PArchi (a : LSTMArchiParams)
| PParams (p : LSTMParams A)
| PArray (t : tensor A)
| PTuple (l : list (pyobj A)).

Arguments PArchi {A} a.
Arguments PParams {A} p.
Arguments PArray {A} t.
Arguments PTuple {A} l.

Record callable (A : Type) : Type := mkCallable {
  arity : nat;
  run : list (pyobj A) -> result (pyobj A)
}.

Definition py_call {A : Type} (f : callable A) (args : list (pyobj A))
  : result (pyobj A) :=
  if length args =? arity f then run f args else Raise TypeError.

Section Tensors.
Context {A : Type}.

(** [t.shape]; below an axis of length zero the shape is not recorded. *)
Fixpoint shape (t : tensor A) : list nat :=
  match t with
  | Scalar _ => []
  | Axis l => length l :: match l with
                          | [] => []
                          | t0 :: _ => shape t0
                          end
  end.

Definition as_scalar (t : tensor A) : result A :=
  match t with
  | Scalar a => Ok a
  | Axis _ => Raise TypeError
  end.

Definition as_axis {X : Type} (f : tensor A -> result X) (t : tensor A)
  : result (list X) :=
  match t with
  | Scalar _ => Raise TypeError
  | Axis l => mapM f l
  end.

Definition as_rank2 : tensor A -> result (matrix A) := as_axis (as_axis as_scalar).
Definition as_rank3 : tensor A -> result (list (matrix A)) := as_axis as_rank2.
Definition as_rank4 : tensor A -> result (list (list (matrix A))) := as_axis as_rank3.
Definition as_rank5 : tensor A -> result (list (list (list (matrix A)))) :=
  as_axis as_rank4.

Definition of_rank2 (m : matrix A) : tensor A :=
  Axis (map (fun row => Axis (map Scalar row)) m).
Definition of_rank3 (t : list (matrix A)) : tensor A := Axis (map of_rank2 t).

(** [t[i:i+1]], [t[:, i:i+1]] and [t[:, i:i+1, :]] *)
Definition slice0 (i : nat) (t : tensor A) : tensor A :=
  match t with
  | Scalar a => Scalar a
  | Axis l => Axis (firstn 1 (skipn i l))
  end.

Definition slice1 (i : nat) (t : tensor A) : tensor A :=
  match t with
  | Scalar a => Scalar a
  | Axis l => Axis (map (slice0 i) l)
  end.

Definition as_array (o : pyobj A) : result (tensor A) :=
  match o with
  | PArray t => Ok t
  | _ => Raise TypeError
  end.

(** [a, b, c = o] *)
Definition unpack3 (o : pyobj A) : result (pyobj A * pyobj A * pyobj A) :=
  match o with
  | PTuple [a; b; c] => Ok (a, b, c)
  | PTuple _ => Raise ValueError
  | _ => Raise TypeError
  end.
End Tensors.

(** ** The static methods of [LSTM] as Python callables *)

Module LSTMCall.
Section Callables.
Context {A : Type} `{Num A} `{Activation A}.

Definition forward : callable A :=
  mkCallable 2 (fun args =>
    match args with
    | [PTuple [PParams params; PArray h; PArray c]; PArray x] =>
        h_prev <- as_rank2 h ;;
        c_prev <- as_rank2 c ;;
        x_cur <- as_rank2 x ;;
        '(_, h_t, c_t, out_t) <- LSTM.forward (params, h_prev, c_prev) x_cur ;;
        Ok (PTuple [PTuple [PParams params; PArray (of_rank2 h_t);
                            PArray (of_rank2 c_t)];
                    PArray (of_rank2 out_t)])
    | [PTuple _; _] => Raise ValueError
    | _ => Raise TypeError
    end).

Definition forward_full : callable A :=
  mkCallable 3 (fun args =>
    match args with
    | [PArchi archi_params; PParams params; PArray x] =>
        x_in <- as_rank4 x ;;
        out_ls <- LSTM.forward_full archi_params params x_in ;;
        Ok (PArray (of_rank3 out_ls))
    | [PArchi _; _; _] => Raise TypeError
    | _ => Raise AttributeError
    end).

Definition forward_batch : callable A :=
  mkCallable 3 (fun args =>
    match args with
    | [PArchi archi_params; PParams params; PArray x] =>
        x_batch <- as_rank5 x ;;
        out <- LSTM.forward_batch archi_params params x_batch ;;
        Ok (PArray (of_rank3 out))
    | [PArchi _; _; _] => Raise TypeError
    | _ => Raise AttributeError
    end).

Definition mse : callable A :=
  mkCallable 4 (fun args =>
    match args with
    | [PArchi archi_params; PParams params; PArray x; PArray y] =>
        x_batch <- as_rank5 x ;;
        y_batch <- as_rank3 y ;;
        loss <- LSTM.mse archi_params params x_batch y_batch ;;
        Ok (PArray (Scalar loss))
    | [PArchi _; _; _; _] => Raise TypeError
    | _ => Raise AttributeError
    end).
End Callables.
End LSTMCall.

(** [jax.vmap(f, in_axes=(None, ..., None, 0))]: the function is traced on
    one argument list, so a wrong number of arguments is an error whatever
    the length of the mapped axis. *)
Definition vmap_last {A : Type} (f : callable A) (fixed : list (pyobj A))
    (batched : tensor A) : result (list (pyobj A)) :=
  match batched with
  | Scalar _ => Raise ValueError
  | Axis l =>
      if S (length fixed) =? arity f
      then mapM (fun x => run f (fixed ++ [PArray x])) l
      else Raise TypeError
  end.

(** [LSTM.backward]: [jax.jacfwd(LSTM.mse, argnums=(1,))] applied to the four
    arguments; the transformation is a parameter. *)
Section Gradient.
Context {A : Type} `{Num A} `{Activation A}.
Variable jacfwd : callable A -> list nat -> list (pyobj A) -> result (pyobj A).

Definition LSTM_backward (archi_params : LSTMArchiParams) (params : LSTMParams A)
    (x_batch y_batch : tensor A) : result (pyobj A) :=
  jacfwd LSTMCall.mse [1]
    [PArchi archi_params; PParams params; PArray x_batch; PArray y_batch].
End Gradient.

(** ** class PeepholeLSTM(LSTM) *)

Module PeepholeLSTM.
Section Cell.
Context {A : Type} `{Num A} `{Activation A}.

Definition f_cur (params : LSTMParams A) (x_cur h_prev c_prev : matrix A)
  : result (matrix A) :=
  v <- concatenate0 [c_prev; h_prev; x_cur] ;;
  a <- matmul (wf params) v ;;
  t <- madd a (bf params) ;;
  Ok (mmap sigmoid t).

Definition i_cur (params : LSTMParams A) (x_cur h_prev c_prev : matrix A)
  : result (matrix A) :=
  v <- concatenate0 [c_prev; h_prev; x_cur] ;;
  a <- matmul (wi params) v ;;
  t <- madd a (bi params) ;;
  Ok (mmap sigmoid t).

Definition o_cur (params : LSTMParams A) (x_cur h_prev c_cur : matrix A)
  : result (matrix A) :=
  v <- concatenate0 [c_cur; h_prev; x_cur] ;;
  a <- matmul (wo params) v ;;
  t <- madd a (bo params) ;;
  Ok (mmap sigmoid t).

(** Inherited: the class does not override [c_cur_hat] and [c_cur]. *)
Definition c_cur_hat := @LSTM.c_cur_hat A _ _.
Definition c_cur := @LSTM.c_cur A _ _.

Definition h_cur (params : LSTMParams A) (x_cur h_prev c_prev c_t : matrix A)
  : result (matrix A) :=
  o_t <- o_cur params x_cur h_prev c_t ;;
  c <- c_cur params x_cur h_prev c_prev ;;
  mmul o_t (mmap tanh c).

Definition forward (params : LSTMParams A) (x_cur h_prev c_prev wout : matrix A)
  : result (matrix A * matrix A * matrix A) :=
  c_t <- c_cur params x_cur h_prev c_prev ;;
  h_t <- h_cur params x_cur h_prev c_prev c_t ;;
  o_t <- matmul wout h_t ;;
  Ok (c_t, o_t, h_t).
End Cell.

(** Sequence, batch, loss and gradient entry points.  The attributes
    [hidden_dim] and [output_dim] read off an [LSTMParams] object depend on
    the class declaration in [utils], and [jax.jacobian] is a transformation
    of the library: the three are taken as parameters. *)
Section Run.
Context {A : Type} `{Num A} `{Activation A}.
Variable params_hidden_dim : LSTMParams A -> result Z.
Variable params_output_dim : LSTMParams A -> result Z.
Variable jacobian : callable A -> list nat -> list (pyobj A) -> result (pyobj A).

(** One iteration of the loop of [forward_full], for the index [i]. *)
Definition step (params : LSTMParams A) (x_in : tensor A) (i : nat)
    (h c : pyobj A) : result (pyobj A * pyobj A * pyobj A) :=
  let ndim := length (shape x_in) in
  r <- (if ndim =? 1 then
          py_call LSTMCall.forward
            [PParams params; PArray (slice0 i x_in); h; c;
             PArray (of_rank2 (wout params))]
        else if ndim =? 2 then
          py_call LSTMCall.forward
            [PParams params; PArray (slice1 i x_in); h; c;
             PArray (of_rank2 (wout params))]
        else if ndim =? 3 then
          py_call LSTMCall.forward
            [PParams params; PArray (slice1 i x_in); h; c;
             PArray (of_rank2 (wout params))]
        else Raise UnboundLocalError) ;;
  unpack3 r.

Fixpoint loop (params : LSTMParams A) (x_in : tensor A) (idx : list nat)
    (h c : pyobj A) (o_ls : list (pyobj A)) : result (list (pyobj A)) :=
  match idx with
  | [] => Ok o_ls
  | i :: idx' =>
      '(c_t, o_t, h_t) <- step params x_in i h c ;;
      loop params x_in idx' h_t c_t (o_ls ++ [o_t])
  end.

Definition forward_full (params : LSTMParams A) (x_in : tensor A)
  : result (tensor A) :=
  match nth_error (shape x_in) 1 with
  | None => Raise IndexError
  | Some time_steps =>
      hd <- params_hidden_dim params ;;
      h <- zeros hd 1 ;;
      od <- params_output_dim params ;;
      o <- zeros od 1 ;;
      hd' <- params_hidden_dim params ;;
      c <- zeros hd' 1 ;;
      o_ls <- loop params x_in (seq 0 time_steps)
                   (PArray (of_rank2 h)) (PArray (of_rank2 c)) [] ;;
      ts <- mapM as_array o_ls ;;
      Ok (Axis ts)
  end.

Definition forward_batch (params : LSTMParams A) (x_batch : tensor A)
  : result (list (matrix A)) :=
  outs <- vmap_last LSTMCall.forward_full [PParams params] x_batch ;;
  ts <- mapM as_array outs ;;
  t4 <- as_rank4 (Axis ts) ;;
  squeeze3 t4.

(** The value returned by [mse] once the batch output is there. *)
Definition mse_value (batch_out y_batch : list (matrix A)) : result A :=
  d <- sub3 batch_out y_batch ;;
  Ok (mul (mean3 (square3 d)) (of_nat 100)).

Definition mse (params : LSTMParams A) (x_batch : tensor A)
    (y_batch : list (matrix A)) : result A :=
  r <- py_call LSTMCall.forward_batch [PParams params; PArray x_batch] ;;
  t <- as_array r ;;
  batch_out <- as_rank3 t ;;
  mse_value batch_out y_batch.

Definition backward (params : LSTMParams A) (x_batch y_batch : tensor A)
  : result (pyobj A) :=
  jacobian LSTMCall.mse [0] [PParams params; PArray x_batch; PArray y_batch].
End Run.
End PeepholeLSTM.

(** ** Reference definitions, in the words of the specification

    The specification speaks of vectors and of matrix-vector products; the
    code works on arrays of shape [(n, 1)].  [col] relates the two. *)

Section Reference.
Context {A : Type} `{Num A} `{Activation A}.

Definition col (v : list A) : matrix A := map (fun a => [a]) v.

(** The entries of an array of shape [(n, 1)]. *)
Definition uncol (m : matrix A) : list A := map (fun row => nth 0 row zero) m.

(** [W · v] *)
Definition mv (W : matrix A) (v : list A) : list A := map (fun row => dot row v) W.

Definition vzip (op : A -> A -> A) (u v : list A) : list A :=
  map (fun p => op (fst p) (snd p)) (combine u v).

Definition vadd : list A -> list A -> list A := vzip add.
Definition vmul : list A -> list A -> list A := vzip mul.

(** [act(U · h + W · x + b)] *)
Definition spec_gate (act : A -> A) (U W : matrix A) (b h x : list A) : list A :=
  map act (vadd (vadd (mv U h) (mv W x)) b).

(** [c_cur = f_t ⊙ c_prev + i_t ⊙ c_hat_t] with the standard gates. *)
Definition spec_c_cur (p : LSTMParams A) (x h c : list A) : list A :=
  let f_t := spec_gate sigmoid (uf p) (wf p) (uncol (bf p)) h x in
  let i_t := spec_gate sigmoid (ui p) (wi p) (uncol (bi p)) h x in
  let c_hat_t := spec_gate tanh (uc p) (wc p) (uncol (bc p)) h x in
  vadd (vmul f_t c) (vmul i_t c_hat_t).

(** The cell step of the standard variant: [(h_cur, c_cur, out_cur)]. *)
Definition spec_cell_step (p : LSTMParams A) (x h c : list A)
  : list A * list A * list A :=
  let c_cur := spec_c_cur p x h c in
  let o_t := spec_gate sigmoid (uo p) (wo p) (uncol (bo p)) h x in
  let h_cur := vmul o_t (map tanh c_cur) in
  (h_cur, c_cur, mv (wout p) h_cur).

(** [sigmoid(W · concat(c, h, x) + b)] *)
Definition spec_peephole_gate (W : matrix A) (b c h x : list A) : list A :=
  map sigmoid (vadd (mv W (c ++ h ++ x)) b).

(** The cell-state update the specification gives for the peephole
    variant: forget and input gates read [concat(c_prev, h_prev, x_cur)]. *)
Definition spec_peephole_c_cur (p : LSTMParams A) (x h c : list A) : list A :=
  let f_t := spec_peephole_gate (wf p) (uncol (bf p)) c h x in
  let i_t := spec_peephole_gate (wi p) (uncol (bi p)) c h x in
  let c_hat_t := spec_gate tanh (uc p) (wc p) (uncol (bc p)) h x in
  vadd (vmul f_t c) (vmul i_t c_hat_t).

(** Mean over all elements of [(predicted - target)^2]. *)
Definition spec_mse (predicted target : list (matrix A)) : A :=
  mean (map (fun pt => mul (sub (fst pt) (snd pt)) (sub (fst pt) (snd pt)))
            (combine (flatten3 predicted) (flatten3 target))).

(** The elementwise difference of two arrays of identical shape, and the
    squared difference of a pair of elements. *)
Definition sub_rows (r1 r2 : list A) : list A := vzip sub r1 r2.
Definition sub_matrices (m1 m2 : matrix A) : matrix A :=
  map (fun q => sub_rows (fst q) (snd q)) (combine m1 m2).
Definition sub_arrays (a b : list (matrix A)) : list (matrix A) :=
  map (fun q => sub_matrices (fst q) (snd q)) (combine a b).
Definition sq_diff (q : A * A) : A :=
  mul (sub (fst q) (snd q)) (sub (fst q) (snd q)).

(** Two arrays of rank three of identical shape. *)
Definition same_shape3 (a b : list (matrix A)) : Prop :=
  Forall2 (Forall2 (fun r1 r2 : list A => length r1 = length r2)) a b.

(** The shapes of the parameters the cell-state update reads, for the
    dimensions [id] and [hd]. *)
Record update_shaped (id hd : nat) (p : LSTMParams A) : Prop := {
  ws_wf : has_shape hd id (wf p); ws_uf : has_shape hd hd (uf p);
  ws_bf : has_shape hd 1 (bf p);
  ws_wi : has_shape hd id (wi p); ws_ui : has_shape hd hd (ui p);
  ws_bi : has_shape hd 1 (bi p);
  ws_wc : has_shape hd id (wc p); ws_uc : has_shape hd hd (uc p);
  ws_bc : has_shape hd 1 (bc p)
}.

(** The shapes [LSTM.init_params] gives the parameters, for the
    dimensions [id], [hd], [od]. *)
Record well_shaped (id hd od : nat) (p : LSTMParams A) : Prop := {
  ws_update : update_shaped id hd p;
  ws_wo : has_shape hd id (wo p); ws_uo : has_shape hd hd (uo p);
  ws_bo : has_shape hd 1 (bo p);
  ws_wout : has_shape od hd (wout p)
}.

(** The shapes the peephole cell step needs: the output gate has one
    weight matrix over [concat(c, h, x)]. *)
Record peephole_shaped (id hd : nat) (p : LSTMParams A) : Prop := {
  ps_update : update_shaped id hd p;
  ps_wo : has_shape hd (hd + hd + id) (wo p);
  ps_bo : has_shape hd 1 (bo p)
}.
End Reference.

(** A batch entry: a leading axis whose first item is a sequence of input
    vectors of length [id]. *)
Definition sequence_entry {A : Type} (id : nat) (x_in : list (list (matrix A))) : Prop :=
  exists xs rest, x_in = xs :: rest /\ Forall (has_shape (A:=A) id 1) xs.

(** ** Element types used to run the definitions *)

(** Symbolic elements: every operation builds a term. *)
Inductive term : Type :=
| TZero
| TVar (n : nat)
| TOfNat (n : nat)
| TAdd (a b : term)
| TSub (a b : term)
| TMul (a b : term)
| TDiv (a b : term)
| TSigmoid (a : term)
| TTanh (a : term).

#[export] Instance term_Num : Num term :=
  {| zero := TZero; add := TAdd; sub := TSub; mul := TMul; div := TDiv;
     of_nat := TOfNat |}.

#[export] Instance term_Activation : Activation term :=
  {| sigmoid := TSigmoid; tanh := TTanh |}.

(** Rational elements, for the arithmetic of the loss. *)
#[export] Instance Q_Num : Num Q :=
  {| zero := 0%Q; add := Qplus; sub := Qminus; mul := Qmult; div := Qdiv;
     of_nat := fun n => inject_Z (Z.of_nat n) |}.

(** ** Example data: symbolic parameters for the dimensions (2, 2, 1) *)

Definition sym_matrix (base r c : nat) : matrix term :=
  map (fun i => map (fun j => TVar (base + i * c + j)) (seq 0 c)) (seq 0 r).

Definition ex_params : LSTMParams term :=
  mkParams (sym_matrix 100 2 2) (sym_matrix 110 2 2) (sym_matrix 120 2 1)
           (sym_matrix 200 2 2) (sym_matrix 210 2 2) (sym_matrix 220 2 1)
           (sym_matrix 300 2 2) (sym_matrix 310 2 2) (sym_matrix 320 2 1)
           (sym_matrix 400 2 2) (sym_matrix 410 2 2) (sym_matrix 420 2 1)
           (sym_matrix 500 1 2).

Definition ex_archi : LSTMArchiParams := mkArchi (PRNGKey 0) 2 2 1.

Definition ex_x : list term := [TVar 1; TVar 2].
Definition ex_h : list term := [TVar 3; TVar 4].
Definition ex_c : list term := [TVar 5; TVar 6].

Definition ex_batch : list (list (list (matrix term))) :=
  [[[col ex_x]]; [[col ex_h]]].

Definition ex_out : list (matrix term) :=
  match LSTM.forward_batch ex_archi ex_params ex_batch with
  | Ok out => out
  | Raise _ => []
  end.

Definition ex_target : list (matrix term) := [[[TVar 7]]; [[TVar 8]]].

(** Symbolic parameters whose output gate has the peephole shape. *)
Definition ex_peephole_params : LSTMParams term :=
  mkParams (sym_matrix 100 2 2) (sym_matrix 110 2 2) (sym_matrix 120 2 1)
           (sym_matrix 200 2 2) (sym_matrix 210 2 2) (sym_matrix 220 2 1)
           (sym_matrix 300 2 2) (sym_matrix 310 2 2) (sym_matrix 320 2 1)
           (sym_matrix 400 2 6) (sym_matrix 410 2 2) (sym_matrix 420 2 1)
           (sym_matrix 500 1 2).

(** An initialiser for the examples: the entries are symbols numbered from
    the seed; a negative dimension is an error. *)
Definition ex_rng (k : prng_key) (shp : Z * Z) : result (matrix term) :=
  let '(PRNGKey seed) := k in
  if ((fst shp <? 0) || (snd shp <? 0))%Z then Raise ValueError
  else Ok (sym_matrix (Z.to_nat seed) (Z.to_nat (fst shp)) (Z.to_nat (snd shp))).

Definition ex_init_archi : LSTMArchiParams :=
  match LSTM_init_params ex_rng 0 2 2 1 with
  | Ok (archi, _) => archi
  | Raise _ => ex_archi
  end.

Definition ex_init_params : LSTMParams term :=
  match LSTM_init_params ex_rng 0 2 2 1 with
  | Ok (_, p) => p
  | Raise _ => ex_params
  end.

(** ** [LSTMModel.forward]

    The layers of a model are the pairs [LSTM.init_params] returns, Python
    tuples; [layers[0].output_dim] and [type(layers[0]).forward_full] are
    attribute lookups on a tuple and on the class [tuple], whose only
    attributes that are not special methods are [count] and [index]. *)

Definition tuple_has_attr (name : string) : bool :=
  existsb (String.eqb name) ["count"%string; "index"%string].

Definition tuple_getattr (name : string) : result unit :=
  if tuple_has_attr name then Ok tt else Raise AttributeError.

Section ModelForward.
Context {A : Type}.

(** The loop of [LSTMModel.forward] over [range(num_lstm)]; a method of
    [tuple] is no scan of a sequence, calling it with these arguments is a
    [TypeError]. *)
Fixpoint LSTMModel_forward_loop (params : @LSTMModelParams A) (x_in : tensor A)
    (idx : list nat) (o_out : tensor A) : result (tensor A) :=
  match idx with
  | [] => Ok o_out
  | i :: idx' =>
      match nth_error (layers params) i with
      | None => Raise IndexError
      | Some cur_params =>
          _ <- index0 (layers params) ;;
          _ <- tuple_getattr "forward_full" ;;
          o_out' <- (Raise TypeError : result (tensor A)) ;;
          LSTMModel_forward_loop params x_in idx' o_out'
      end
  end.

Definition LSTMModel_forward (params : @LSTMModelParams A) (x_in : tensor A)
  : result (tensor A) :=
  match nth_error (shape x_in) 0 with
  | None => Raise IndexError
  | Some _ =>
      _ <- index0 (layers params) ;;
      _ <- tuple_getattr "output_dim" ;;
      o_out <- (Raise TypeError : result (tensor A)) ;;
      LSTMModel_forward_loop params x_in (seq 0 (Z.to_nat (num_lstm params))) o_out
  end.
End ModelForward.

(** * Properties *)

Ltac shape_solve :=
  repeat match goal with
         | |- well_shaped _ _ _ _ => constructor
         | |- update_shaped _ _ _ => constructor
         | |- peephole_shaped _ _ _ => constructor
         | |- has_shape _ _ _ => split; [reflexivity | repeat constructor]
         | |- Forall _ _ => repeat constructor
         end.

(** ** Arrays of shape [(n, 1)] and vectors *)

Section ArrayFacts.
Context {A : Type} `{Num A}.

Lemma has_shape_rectangular (r c : nat) (W : matrix A) :
  has_shape r c W -> 0 < r -> rectangular W = true /\ ncols W = c.
Proof.
  intros [Hlen Hrows] Hr.
  destruct W as [|row W']; simpl in Hlen; [lia|].
  assert (Hc : length row = c) by (inversion Hrows; assumption).
  split; [|exact Hc].
  unfold rectangular. apply forallb_forall. intros row' Hin.
  rewrite Forall_forall in Hrows. apply Nat.eqb_eq.
  simpl. rewrite Hc. apply Hrows, Hin.
Qed.

Lemma col_length (v : list A) : length (col v) = length v.
Proof. apply length_map. Qed.

Lemma col_has_shape (v : list A) : has_shape (length v) 1 (col v).
Proof.
  split; [apply col_length|].
  unfold col. apply Forall_forall. intros row Hin.
  apply in_map_iff in Hin. destruct Hin as [a [<- _]]. reflexivity.
Qed.

Lemma column0_col (v : list A) : column 0 (col v) = v.
Proof.
  unfold column, col. rewrite map_map. simpl. apply map_id.
Qed.

Lemma col_uncol (n : nat) (m : matrix A) : has_shape n 1 m -> col (uncol m) = m.
Proof.
  intros [_ Hrows]. unfold col, uncol. rewrite map_map.
  induction Hrows as [|row m' Hrow _ IH]; [reflexivity|].
  simpl. rewrite IH. f_equal.
  destruct row as [|a [|b row']]; simpl in Hrow; try discriminate. reflexivity.
Qed.

Lemma uncol_col (v : list A) : uncol (col v) = v.
Proof. unfold uncol, col. rewrite map_map. simpl. apply map_id. Qed.

Lemma uncol_length (m : matrix A) : length (uncol m) = length m.
Proof. apply length_map. Qed.

Lemma mv_length (W : matrix A) (v : list A) : length (mv W v) = length W.
Proof. apply length_map. Qed.

Lemma vzip_length (op : A -> A -> A) (u v : list A) :
  length u = length v -> length (vzip op u v) = length u.
Proof.
  intros E. unfold vzip. rewrite length_map, length_combine. lia.
Qed.

(** [W @ v] on a column is the matrix-vector product. *)
Lemma matmul_col (r c : nat) (W : matrix A) (v : list A) :
  has_shape r c W -> 0 < r -> 0 < c -> length v = c ->
  matmul W (col v) = Ok (col (mv W v)).
Proof.
  intros HW Hr Hc Hv.
  destruct (has_shape_rectangular HW Hr) as [Hrect Hcols].
  destruct (has_shape_rectangular (col_has_shape v)) as [Hrect' Hcols']; [lia|].
  unfold matmul. rewrite Hrect, Hrect', Hcols. unfold nrows.
  rewrite col_length, Hv, Nat.eqb_refl. simpl.
  rewrite Hcols'. simpl. rewrite column0_col.
  unfold col, mv. rewrite map_map. reflexivity.
Qed.

Lemma zipM_col (op : A -> A -> A) (u v : list A) :
  length u = length v ->
  zipM (broadcast (fun x y => Ok (op x y))) (col u) (col v)
  = Ok (col (vzip op u v)).
Proof.
  revert v. induction u as [|a u IH]; intros [|b v] E; simpl in E; try discriminate.
  - reflexivity.
  - simpl. rewrite IH by lia. reflexivity.
Qed.

(** Elementwise operations on columns of equal length. *)
Lemma elementwise_col (op : A -> A -> A) (u v : list A) :
  length u = length v ->
  elementwise op (col u) (col v) = Ok (col (vzip op u v)).
Proof.
  intros E. unfold elementwise, broadcast at 1.
  rewrite !col_length, E, Nat.eqb_refl. apply zipM_col, E.
Qed.

Lemma mmap_col (f : A -> A) (v : list A) : mmap f (col v) = col (map f v).
Proof. unfold mmap, col. rewrite !map_map. reflexivity. Qed.
End ArrayFacts.

(** ** The cell step of the standard variant *)

Section CellFacts.
Context {A : Type} `{Num A} `{Activation A}.
Variables (id hd : nat) (p : LSTMParams A).
Hypothesis Hp : update_shaped id hd p.
Hypothesis Hid : 0 < id.
Hypothesis Hhd : 0 < hd.

Lemma gate_col (act : A -> A) (U W b : matrix A) (h x : list A) :
  has_shape hd hd U -> has_shape hd id W -> has_shape hd 1 b ->
  length h = hd -> length x = id ->
  (a <- matmul U (col h) ;;
   b' <- matmul W (col x) ;;
   s <- madd a b' ;;
   t <- madd s b ;;
   Ok (mmap act t))
  = Ok (col (spec_gate act U W (uncol b) h x)).
Proof.
  intros HU HW Hb Hh Hx.
  rewrite (matmul_col h HU Hhd Hhd Hh). simpl.
  rewrite (matmul_col x HW Hhd Hid Hx). simpl.
  assert (E1 : length (mv U h) = length (mv W x)).
  { rewrite !mv_length. destruct HU as [-> _], HW as [-> _]. reflexivity. }
  unfold madd. rewrite (elementwise_col add _ _ E1). simpl.
  rewrite <- (col_uncol Hb) at 1.
  assert (E2 : length (vzip add (mv U h) (mv W x)) = length (uncol b)).
  { rewrite (vzip_length _ _ _ E1), mv_length, uncol_length.
    destruct HU as [-> _], Hb as [-> _]. reflexivity. }
  rewrite (elementwise_col add _ _ E2). simpl.
  rewrite mmap_col. reflexivity.
Qed.

Lemma spec_gate_length (act : A -> A) (U W b : matrix A) (h x : list A) :
  has_shape hd hd U -> has_shape hd id W -> has_shape hd 1 b ->
  length (spec_gate act U W (uncol b) h x) = hd.
Proof.
  intros [HU _] [HW _] [Hb _]. unfold spec_gate, vadd.
  rewrite length_map, !vzip_length; rewrite ?mv_length, ?uncol_length; try lia.
  rewrite vzip_length; rewrite ?mv_length; lia.
Qed.

Lemma f_cur_col (x h : list A) :
  length h = hd -> length x = id ->
  LSTM.f_cur p (col x) (col h)
  = Ok (col (spec_gate sigmoid (uf p) (wf p) (uncol (bf p)) h x)).
Proof. intros; apply gate_col; auto; apply Hp. Qed.

Lemma i_cur_col (x h : list A) :
  length h = hd -> length x = id ->
  LSTM.i_cur p (col x) (col h)
  = Ok (col (spec_gate sigmoid (ui p) (wi p) (uncol (bi p)) h x)).
Proof. intros; apply gate_col; auto; apply Hp. Qed.

Lemma c_cur_hat_col (x h : list A) :
  length h = hd -> length x = id ->
  LSTM.c_cur_hat p (col x) (col h)
  = Ok (col (spec_gate tanh (uc p) (wc p) (uncol (bc p)) h x)).
Proof. intros; apply gate_col; auto; apply Hp. Qed.

Lemma o_cur_col (x h : list A) :
  has_shape hd hd (uo p) -> has_shape hd id (wo p) -> has_shape hd 1 (bo p) ->
  length h = hd -> length x = id ->
  LSTM.o_cur p (col x) (col h)
  = Ok (col (spec_gate sigmoid (uo p) (wo p) (uncol (bo p)) h x)).
Proof. intros; apply gate_col; auto. Qed.

Lemma spec_c_cur_length (x h c : list A) :
  length c = hd -> length (spec_c_cur p x h c) = hd.
Proof.
  intros Hc. unfold spec_c_cur, vadd, vmul.
  assert (Lf := spec_gate_length sigmoid h x (ws_uf Hp) (ws_wf Hp) (ws_bf Hp)).
  assert (Li := spec_gate_length sigmoid h x (ws_ui Hp) (ws_wi Hp) (ws_bi Hp)).
  assert (Lc := spec_gate_length tanh h x (ws_uc Hp) (ws_wc Hp) (ws_bc Hp)).
  rewrite !vzip_length; rewrite ?vzip_length; lia.
Qed.

Lemma c_cur_col (x h c : list A) :
  length h = hd -> length x = id -> length c = hd ->
  LSTM.c_cur p (col x) (col h) (col c) = Ok (col (spec_c_cur p x h c)).
Proof.
  intros Hh Hx Hc. unfold LSTM.c_cur.
  rewrite (i_cur_col _ _ Hh Hx), (c_cur_hat_col _ _ Hh Hx), (f_cur_col _ _ Hh Hx).
  simpl.
  assert (Lf := spec_gate_length sigmoid h x (ws_uf Hp) (ws_wf Hp) (ws_bf Hp)).
  assert (Li := spec_gate_length sigmoid h x (ws_ui Hp) (ws_wi Hp) (ws_bi Hp)).
  assert (Lc := spec_gate_length tanh h x (ws_uc Hp) (ws_wc Hp) (ws_bc Hp)).
  unfold mmul, madd.
  rewrite (elementwise_col mul) by lia. simpl.
  rewrite (elementwise_col mul) by lia. simpl.
  rewrite (elementwise_col add) by (rewrite !vzip_length; lia).
  reflexivity.
Qed.
End CellFacts.

Lemma forward_col
    {A : Type} {N : Num A} {Ac : Activation A}
    (id hd od : nat) (p : LSTMParams A) (x h c : list A) :
  well_shaped id hd od p -> 0 < id -> 0 < hd -> 0 < od ->
  length x = id -> length h = hd -> length c = hd ->
  LSTM.forward (p, col h, col c) (col x)
  = Ok ((p, col (fst (fst (spec_cell_step p x h c))),
            col (snd (fst (spec_cell_step p x h c)))),
        col (snd (spec_cell_step p x h c))).
Proof.
  intros Hp Hid Hhd Hod Hx Hh Hc.
  pose proof (ws_update Hp) as Hu.
  unfold LSTM.forward, LSTM.h_cur.
  rewrite (@o_cur_col _ _ _ id hd p Hid Hhd x h (ws_uo Hp) (ws_wo Hp) (ws_bo Hp) Hh Hx).
  cbn [bind].
  rewrite (@c_cur_col _ _ _ id hd p Hu Hid Hhd x h c Hh Hx Hc). cbn [bind].
  rewrite mmap_col.
  assert (Lo := @spec_gate_length _ _ id hd Hid Hhd sigmoid _ _ _ h x
                  (ws_uo Hp) (ws_wo Hp) (ws_bo Hp)).
  assert (Lc := @spec_c_cur_length _ _ _ id hd p Hu Hid Hhd x h c Hc).
  unfold mmul. rewrite (elementwise_col mul) by (rewrite length_map; lia).
  cbn [bind].
  rewrite (matmul_col _ (ws_wout Hp) Hod Hhd).
  - reflexivity.
  - rewrite vzip_length; rewrite ?length_map; lia.
Qed.

Lemma spec_cell_step_lengths
    {A : Type} {N : Num A} {Ac : Activation A}
    (id hd od : nat) (p : LSTMParams A) (x h c : list A) :
  well_shaped id hd od p -> 0 < id -> 0 < hd -> length c = hd ->
  length (fst (fst (spec_cell_step p x h c))) = hd
  /\ length (snd (fst (spec_cell_step p x h c))) = hd
  /\ length (snd (spec_cell_step p x h c)) = od.
Proof.
  intros Hp Hid Hhd Hc. unfold spec_cell_step. simpl.
  pose proof (ws_update Hp) as Hu.
  assert (Lo := @spec_gate_length _ _ id hd Hid Hhd sigmoid _ _ _ h x
                  (ws_uo Hp) (ws_wo Hp) (ws_bo Hp)).
  assert (Lc := @spec_c_cur_length _ _ _ id hd p Hu Hid Hhd x h c Hc).
  repeat split.
  - unfold vmul. rewrite vzip_length; rewrite ?length_map; lia.
  - exact Lc.
  - rewrite mv_length. apply (ws_wout Hp).
Qed.

(** C1. For the standard variant, for parameters of the shapes of the
    architecture and every input vector and previous state, the cell step
    [LSTM.forward] returns the reference values: the gates are
    [sigmoid(U · h_prev + W · x_cur + b)], the candidate is the [tanh] of the
    same form, [c_cur = f_t ⊙ c_prev + i_t ⊙ c_hat_t],
    [h_cur = o_t ⊙ tanh(c_cur)] and [out_cur = Wout · h_cur]. *)
Theorem forward_is_spec_cell_step
    (A : Type) (N : Num A) (Ac : Activation A)
    (id hd od : nat) (p : LSTMParams A) (x h c : list A) :
  well_shaped id hd od p -> 0 < id -> 0 < hd -> 0 < od ->
  length x = id -> length h = hd -> length c = hd ->
  LSTM.forward (p, col h, col c) (col x)
  = Ok ((p, col (fst (fst (spec_cell_step p x h c))),
            col (snd (fst (spec_cell_step p x h c)))),
        col (snd (spec_cell_step p x h c))).
Proof. exact (@forward_col A N Ac id hd od p x h c). Qed.

Lemma forward_is_spec_cell_step_witness :
  LSTM.forward (ex_params, col ex_h, col ex_c) (col ex_x)
  = Ok ((ex_params, col (fst (fst (spec_cell_step ex_params ex_x ex_h ex_c))),
                    col (snd (fst (spec_cell_step ex_params ex_x ex_h ex_c)))),
        col (snd (spec_cell_step ex_params ex_x ex_h ex_c))).
Proof.
  apply (@forward_is_spec_cell_step term _ _ 2 2 1);
    [shape_solve | lia | lia | lia | reflexivity | reflexivity | reflexivity].
Defined.

(** ** The sequence scan *)

Section ScanFacts.
Context {A : Type} `{Num A} `{Activation A}.
Variables (id hd od : nat) (p : LSTMParams A).
Hypothesis Hp : well_shaped id hd od p.
Hypothesis Hid : 0 < id.
Hypothesis Hhd : 0 < hd.
Hypothesis Hod : 0 < od.

Lemma forward_shape (X Hm Cm : matrix A) :
  has_shape id 1 X -> has_shape hd 1 Hm -> has_shape hd 1 Cm ->
  exists H' C' out,
    LSTM.forward (p, Hm, Cm) X = Ok ((p, H', C'), out)
    /\ has_shape hd 1 H' /\ has_shape hd 1 C' /\ has_shape od 1 out.
Proof.
  intros HX HH HC.
  assert (Lx : length (uncol X) = id) by (rewrite uncol_length; apply HX).
  assert (Lh : length (uncol Hm) = hd) by (rewrite uncol_length; apply HH).
  assert (Lc : length (uncol Cm) = hd) by (rewrite uncol_length; apply HC).
  destruct (@spec_cell_step_lengths _ _ _ _ _ _ _ (uncol X) (uncol Hm) _ Hp Hid Hhd Lc)
    as [L1 [L2 L3]].
  pose proof (@forward_col _ _ _ _ _ _ _ _ _ _ Hp Hid Hhd Hod Lx Lh Lc) as E.
  rewrite (col_uncol HX), (col_uncol HH), (col_uncol HC) in E.
  eexists _, _, _. split; [exact E|].
  repeat split; try (rewrite col_length; assumption); apply col_has_shape.
Qed.

Lemma scan_forward_shape (xs : list (matrix A)) :
  Forall (has_shape id 1) xs ->
  forall Hm Cm, has_shape hd 1 Hm -> has_shape hd 1 Cm ->
  exists final out_ls,
    scan LSTM.forward (p, Hm, Cm) xs = Ok (final, out_ls)
    /\ length out_ls = length xs
    /\ Forall (has_shape od 1) out_ls.
Proof.
  induction 1 as [|X xs HX _ IH]; intros Hm Cm HH HC.
  - exists (p, Hm, Cm), []. repeat split. constructor.
  - destruct (forward_shape HX HH HC) as [H' [C' [out [E [SH [SC SO]]]]]].
    destruct (IH H' C' SH SC) as [final [outs [E' [L F]]]].
    exists final, (out :: outs). cbn [scan]. rewrite E. cbn [bind]. rewrite E'. cbn [bind].
    repeat split; [simpl; now rewrite L | now constructor].
Qed.
End ScanFacts.

Lemma scan_app (C X Y : Type) (f : C -> X -> result (C * Y)) (xs ys : list X) :
  forall carry,
    scan f carry (xs ++ ys)
    = bind (scan f carry xs) (fun r1 =>
        bind (scan f (fst r1) ys) (fun r2 =>
          Ok (fst r2, snd r1 ++ snd r2))).
Proof.
  induction xs as [|x xs IH]; intros carry; simpl.
  - destruct (scan f carry ys) as [[c o]|e]; reflexivity.
  - destruct (f carry x) as [[c y]|e]; simpl; [|reflexivity].
    rewrite IH. destruct (scan f c xs) as [[c1 o1]|e]; simpl; [|reflexivity].
    destruct (scan f c1 ys) as [[c2 o2]|e]; reflexivity.
Qed.

Lemma scan_length (C X Y : Type) (f : C -> X -> result (C * Y)) (xs : list X) :
  forall carry final out_ls,
    scan f carry xs = Ok (final, out_ls) -> length out_ls = length xs.
Proof.
  induction xs as [|x xs IH]; intros carry final out_ls; simpl.
  - intros E. inversion E. reflexivity.
  - destruct (f carry x) as [[c y]|e]; simpl; [|discriminate].
    destruct (scan f c xs) as [[c1 o1]|e] eqn:E1; simpl; [|discriminate].
    intros E. inversion E. simpl. f_equal. eapply IH, E1.
Qed.

Lemma zeros_col {A : Type} {N : Num A} (n : nat) :
  zeros (Z.of_nat n) 1 = Ok (col (repeat zero n)).
Proof.
  unfold zeros.
  replace ((Z.of_nat n <? 0)%Z || (1 <? 0)%Z) with false.
  - f_equal. rewrite Nat2Z.id. change (Z.to_nat 1) with 1. unfold col.
    induction n as [|n IH]; simpl; [reflexivity | f_equal; exact IH].
  - symmetry. apply orb_false_iff. split; apply Z.ltb_ge; lia.
Qed.

Lemma forward_full_shape {A : Type} {N : Num A} {Ac : Activation A}
    (id hd od : nat) (archi : LSTMArchiParams) (p : LSTMParams A)
    (xs : list (matrix A)) (rest : list (list (matrix A))) :
  well_shaped id hd od p -> hidden_dim archi = Z.of_nat hd ->
  0 < id -> 0 < hd -> 0 < od -> Forall (has_shape id 1) xs ->
  exists out_ls,
    LSTM.forward_full archi p (xs :: rest) = Ok out_ls
    /\ length out_ls = length xs
    /\ Forall (has_shape od 1) out_ls.
Proof.
  intros Hp Hdim Hid Hhd Hod Hxs.
  assert (Hz : has_shape hd 1 (col (repeat (@zero A N) hd))).
  { rewrite <- (repeat_length (@zero A N) hd) at 1. apply col_has_shape. }
  destruct (scan_forward_shape Hp Hid Hhd Hod Hxs Hz Hz) as [final [outs [E [L F]]]].
  exists outs. unfold LSTM.forward_full.
  rewrite Hdim, zeros_col. cbn [bind index0]. rewrite E. cbn [bind].
  auto.
Qed.




(** ** The batch executor *)

Lemma mapM_Forall2 {X Y : Type} (f : X -> result Y) (P : X -> Y -> Prop)
    (l : list X) :
  Forall (fun x => exists y, f x = Ok y /\ P x y) l ->
  exists ys, mapM f l = Ok ys /\ Forall2 P l ys.
Proof.
  induction 1 as [|x l [y [E HP]] _ [ys [E' F]]].
  - exists []. split; [reflexivity | constructor].
  - exists (y :: ys). simpl. rewrite E. cbn [bind]. rewrite E'. cbn [bind].
    split; [reflexivity | now constructor].
Qed.

Lemma Forall2_nth_some {X Y : Type} (P : X -> Y -> Prop) (l : list X) (ys : list Y) :
  Forall2 P l ys ->
  forall k x, nth_error l k = Some x -> exists y, nth_error ys k = Some y /\ P x y.
Proof.
  induction 1 as [|x0 y0 l ys HP _ IH]; intros [|k] x E; simpl in E; try discriminate.
  - inversion E; subst. exists y0. split; [reflexivity | exact HP].
  - exact (IH k x E).
Qed.

Lemma squeeze_rows {A : Type} {N : Num A} (n : nat) (m : matrix A) :
  has_shape n 1 m -> mapM squeeze_row m = Ok (uncol m).
Proof.
  intros [_ F]. induction F as [|row m Hrow _ IH]; [reflexivity|].
  destruct row as [|a [|b row]]; simpl in Hrow; try discriminate.
  simpl. rewrite IH. reflexivity.
Qed.

Lemma squeeze_sequence {A : Type} {N : Num A} (n : nat) (o : list (matrix A)) :
  Forall (has_shape n 1) o -> mapM (mapM squeeze_row) o = Ok (map uncol o).
Proof.
  induction 1 as [|m o Hm _ IH]; [reflexivity|].
  simpl. rewrite (squeeze_rows Hm). cbn [bind]. rewrite IH. reflexivity.
Qed.

Lemma forward_batch_map {A : Type} {N : Num A} {Ac : Activation A}
    (id hd od : nat) (archi : LSTMArchiParams) (p : LSTMParams A)
    (x_batch : list (list (list (matrix A)))) :
  well_shaped id hd od p -> hidden_dim archi = Z.of_nat hd ->
  0 < id -> 0 < hd -> 0 < od -> Forall (sequence_entry id) x_batch ->
  exists outs,
    LSTM.forward_batch archi p x_batch = Ok (map (map uncol) outs)
    /\ Forall2 (fun x_in o => LSTM.forward_full archi p x_in = Ok o
                              /\ Forall (has_shape od 1) o) x_batch outs.
Proof.
  intros Hp Hdim Hid Hhd Hod Hb.
  destruct (@mapM_Forall2 _ _ (LSTM.forward_full archi p)
              (fun x_in o => LSTM.forward_full archi p x_in = Ok o
                             /\ Forall (has_shape od 1) o) x_batch)
    as [outs [E F]].
  { eapply Forall_impl; [|exact Hb]. intros x_in [xs [rest [-> Hxs]]].
    destruct (forward_full_shape archi rest Hp Hdim Hid Hhd Hod Hxs)
      as [o [Eo [_ Fo]]].
    exists o. auto. }
  exists outs. split; [|exact F].
  unfold LSTM.forward_batch. rewrite E. cbn [bind]. unfold squeeze3.
  clear E. induction F as [|x_in o l outs [_ Fo] _ IH]; [reflexivity|].
  simpl. rewrite (squeeze_sequence Fo). cbn [bind].
  rewrite IH; [reflexivity|]. inversion Hb; assumption.
Qed.

(** C6. The batch executor [LSTM.forward_batch] is an independent map of the
    sequence scan over the batch: it returns one output per batch entry, and
    the output at index [k] is the output of [LSTM.forward_full] run alone on
    the [k]-th entry with the same parameters (with the unit axis of every
    output vector squeezed away). *)
Theorem forward_batch_is_map {A : Type} {N : Num A} {Ac : Activation A}
    (id hd od : nat) (archi : LSTMArchiParams) (p : LSTMParams A)
    (x_batch : list (list (list (matrix A)))) :
  well_shaped id hd od p -> hidden_dim archi = Z.of_nat hd ->
  0 < id -> 0 < hd -> 0 < od -> Forall (sequence_entry id) x_batch ->
  exists out,
    LSTM.forward_batch archi p x_batch = Ok out
    /\ length out = length x_batch
    /\ forall k x_in,
        nth_error x_batch k = Some x_in ->
        exists o,
          LSTM.forward_full archi p x_in = Ok o
          /\ mapM (mapM squeeze_row) o = Ok (map uncol o)
          /\ nth_error out k = Some (map uncol o).
Proof.
  intros Hp Hdim Hid Hhd Hod Hb.
  destruct (forward_batch_map archi Hp Hdim Hid Hhd Hod Hb) as [outs [E F]].
  exists (map (map uncol) outs). split; [exact E|]. split.
  - rewrite length_map. symmetry. exact (Forall2_length F).
  - intros k x_in Hk.
    destruct (Forall2_nth_some F k Hk) as [o [Ho [Eo Fo]]].
    exists o. split; [exact Eo|]. split; [exact (squeeze_sequence Fo)|].
    rewrite nth_error_map, Ho. reflexivity.
Qed.

Lemma forward_batch_is_map_witness :
  exists out,
    LSTM.forward_batch ex_archi ex_params
      [[[col ex_x; col ex_h]]; [[col ex_c; col ex_x]]] = Ok out
    /\ length out = 2.
Proof.
  destruct (@forward_batch_is_map term _ _ 2 2 1 ex_archi ex_params
              [[[col ex_x; col ex_h]]; [[col ex_c; col ex_x]]])
    as [out [E [L _]]];
    [shape_solve | reflexivity | lia | lia | lia | |].
  - repeat constructor; eexists _, _; (split; [reflexivity | shape_solve]).
  - exists out. split; [exact E | exact L].
Defined.

(** ** The loss *)

Section LossFacts.
Context {A : Type} `{Num A}.

Lemma zipM_zip {X Y : Type} (f : X -> X -> result Y) (g : X -> X -> Y)
    (P : X -> X -> Prop) (xs ys : list X) :
  (forall x y, P x y -> f x y = Ok (g x y)) ->
  Forall2 P xs ys ->
  zipM f xs ys = Ok (map (fun q => g (fst q) (snd q)) (combine xs ys)).
Proof.
  intros Hf. induction 1 as [|x y xs ys HP _ IH]; [reflexivity|].
  simpl. rewrite (Hf x y HP). cbn [bind]. rewrite IH. reflexivity.
Qed.

(** On arguments of equal length, broadcasting is the plain zip. *)
Lemma broadcast_zip {X Y : Type} (f : X -> X -> result Y) (g : X -> X -> Y)
    (P : X -> X -> Prop) (xs ys : list X) :
  (forall x y, P x y -> f x y = Ok (g x y)) ->
  Forall2 P xs ys ->
  broadcast f xs ys = Ok (map (fun q => g (fst q) (snd q)) (combine xs ys)).
Proof.
  intros Hf F. unfold broadcast.
  rewrite (Forall2_length F), Nat.eqb_refl. exact (zipM_zip f g Hf F).
Qed.

Lemma Forall2_same_length {X : Type} (u v : list X) :
  length u = length v -> Forall2 (fun _ _ => True) u v.
Proof.
  revert v. induction u as [|a u IH]; intros [|b v] E; simpl in E;
    try discriminate; constructor; auto.
Qed.

Lemma sub3_same_shape (a b : list (matrix A)) :
  same_shape3 a b -> sub3 a b = Ok (sub_arrays a b).
Proof.
  intros F. unfold sub3, sub_arrays.
  apply broadcast_zip
    with (P := Forall2 (fun r1 r2 : list A => length r1 = length r2));
    [|exact F].
  intros m1 m2 Fm. unfold sub_matrices.
  apply broadcast_zip with (P := fun r1 r2 : list A => length r1 = length r2);
    [|exact Fm].
  intros r1 r2 E. unfold sub_rows, vzip.
  apply broadcast_zip with (P := fun _ _ : A => True); [reflexivity|].
  apply Forall2_same_length, E.
Qed.

Lemma combine_app_same {X Y : Type} (u u' : list X) (v v' : list Y) :
  length u = length v -> combine (u ++ u') (v ++ v') = combine u v ++ combine u' v'.
Proof.
  revert v. induction u as [|a u IH]; intros [|b v] E; simpl in E;
    try discriminate; [reflexivity|].
  simpl. rewrite IH by lia. reflexivity.
Qed.

Lemma square_rows (r1 r2 : list A) :
  map (fun x => mul x x) (sub_rows r1 r2) = map sq_diff (combine r1 r2).
Proof. unfold sub_rows, vzip. rewrite map_map. reflexivity. Qed.

Lemma concat_same_length (m1 m2 : matrix A) :
  Forall2 (fun r1 r2 : list A => length r1 = length r2) m1 m2 ->
  length (concat m1) = length (concat m2).
Proof.
  induction 1 as [|r1 r2 m1 m2 E _ IH]; [reflexivity|].
  simpl. rewrite !length_app. lia.
Qed.

Lemma square_matrices (m1 m2 : matrix A) :
  Forall2 (fun r1 r2 : list A => length r1 = length r2) m1 m2 ->
  concat (map (map (fun x => mul x x)) (sub_matrices m1 m2))
  = map sq_diff (combine (concat m1) (concat m2)).
Proof.
  induction 1 as [|r1 r2 m1 m2 E _ IH]; [reflexivity|].
  unfold sub_matrices in *. simpl.
  rewrite (combine_app_same _ _ _ _ E), map_app, IH, square_rows. reflexivity.
Qed.

Lemma square_arrays (a b : list (matrix A)) :
  same_shape3 a b ->
  flatten3 (square3 (sub_arrays a b))
  = map sq_diff (combine (flatten3 a) (flatten3 b)).
Proof.
  unfold flatten3, square3.
  induction 1 as [|m1 m2 a b F _ IH]; [reflexivity|].
  unfold sub_arrays in *. simpl.
  rewrite (combine_app_same _ _ _ _ (concat_same_length F)), map_app.
  rewrite <- IH, <- (square_matrices F). reflexivity.
Qed.

Lemma mean3_is_spec_mse (a b : list (matrix A)) :
  same_shape3 a b -> mean3 (square3 (sub_arrays a b)) = spec_mse a b.
Proof.
  intros F. unfold mean3, spec_mse. rewrite (square_arrays F). reflexivity.
Qed.
End LossFacts.




(** ** The peephole cell *)

Section PeepholeFacts.
Context {A : Type} `{Num A} `{Activation A}.
Variables (id hd : nat) (p : LSTMParams A).
Hypothesis Hid : 0 < id.
Hypothesis Hhd : 0 < hd.

Lemma concatenate0_col (c h x : list A) :
  0 < length c -> 0 < length h -> 0 < length x ->
  concatenate0 [col c; col h; col x] = Ok (col (c ++ h ++ x)).
Proof.
  destruct c as [|a c]; destruct h as [|b h]; destruct x as [|d x];
    simpl; intros Lc Lh Lx; try lia.
  unfold col. simpl. repeat (rewrite map_app; simpl). reflexivity.
Qed.


Hypothesis Hp : update_shaped id hd p.
Hypothesis Hwo : has_shape hd (hd + hd + id) (wo p).
Hypothesis Hbo : has_shape hd 1 (bo p).



End PeepholeFacts.



(** On symbolic parameters, handing [PeepholeLSTM.h_cur] another current
    cell state, with [c_prev] fixed, gives another hidden state. *)
Lemma peephole_h_cur_depends_on_c_t :
  PeepholeLSTM.h_cur ex_peephole_params (col ex_x) (col ex_h) (col ex_c) (col ex_x)
  <> PeepholeLSTM.h_cur ex_peephole_params (col ex_x) (col ex_h) (col ex_c) (col ex_h).
Proof. vm_compute. discriminate. Qed.

(** C3 (the code diverges). The cell-state update of the peephole variant is
    the inherited [LSTM.c_cur]: its forget and input gates are the standard
    [sigmoid(U · h_prev + W · x_cur + b)], with the recurrent matrices [U]
    and weights of shape [hidden_dim × input_dim]; [c_prev] is not read by
    the gates. *)
Theorem peephole_c_cur_uses_standard_gates
    {A : Type} {N : Num A} {Ac : Activation A}
    (id hd : nat) (p : LSTMParams A) (x h c : list A) :
  update_shaped id hd p -> 0 < id -> 0 < hd ->
  length x = id -> length h = hd -> length c = hd ->
  PeepholeLSTM.c_cur p (col x) (col h) (col c) = Ok (col (spec_c_cur p x h c)).
Proof.
  intros Hu Hid Hhd Hx Hh Hc. unfold PeepholeLSTM.c_cur.
  exact (c_cur_col Hu Hid Hhd x h c Hh Hx Hc).
Qed.

Lemma peephole_c_cur_uses_standard_gates_witness :
  PeepholeLSTM.c_cur ex_params (col ex_x) (col ex_h) (col ex_c)
  = Ok (col (spec_c_cur ex_params ex_x ex_h ex_c)).
Proof.
  apply (@peephole_c_cur_uses_standard_gates term _ _ 2 2);
    try reflexivity; try lia; shape_solve.
Defined.

(** On the example parameters the value of the update is not the one the
    peephole equations give. *)
Lemma peephole_c_cur_is_not_spec :
  PeepholeLSTM.c_cur ex_params (col ex_x) (col ex_h) (col ex_c)
  <> Ok (col (spec_peephole_c_cur ex_params ex_x ex_h ex_c)).
Proof. vm_compute. discriminate. Qed.

(** ** Calls with a wrong number of arguments *)

Lemma raises_bind {X Y : Type} (r : result X) (k : X -> result Y) :
  raises r -> raises (bind r k).
Proof. intros [e ->]. exists e. reflexivity. Qed.

Lemma raises_bind_all {X Y : Type} (r : result X) (k : X -> result Y) :
  (forall x, raises (k x)) -> raises (bind r k).
Proof.
  intros Hk. destruct r as [x|e]; [apply Hk | exists e; reflexivity].
Qed.

Section ArityFacts.
Context {A : Type} `{Num A} `{Activation A}.

Lemma forward_five_arguments (a1 a2 a3 a4 a5 : pyobj A) :
  py_call LSTMCall.forward [a1; a2; a3; a4; a5] = Raise TypeError.
Proof. reflexivity. Qed.

Lemma forward_batch_two_arguments (a1 a2 : pyobj A) :
  py_call LSTMCall.forward_batch [a1; a2] = Raise TypeError.
Proof. reflexivity. Qed.

Lemma mse_three_arguments (a1 a2 a3 : pyobj A) :
  py_call LSTMCall.mse [a1; a2; a3] = Raise TypeError.
Proof. reflexivity. Qed.

(** [PeepholeLSTM.mse] asks the three-argument [LSTM.forward_batch] for the
    batch output with two arguments. *)
Lemma peephole_mse_raises (p : LSTMParams A) (x_batch : tensor A)
    (y_batch : list (matrix A)) :
  PeepholeLSTM.mse p x_batch y_batch = Raise TypeError.
Proof. reflexivity. Qed.

Lemma step_raises (p : LSTMParams A) (x_in : tensor A) (i : nat) (h c : pyobj A) :
  raises (PeepholeLSTM.step p x_in i h c).
Proof.
  unfold PeepholeLSTM.step. apply raises_bind.
  destruct (length (shape x_in) =? 1); [eexists; apply forward_five_arguments|].
  destruct (length (shape x_in) =? 2); [eexists; apply forward_five_arguments|].
  destruct (length (shape x_in) =? 3); [eexists; apply forward_five_arguments|].
  eexists; reflexivity.
Qed.

Lemma loop_raises (p : LSTMParams A) (x_in : tensor A) (i : nat) (idx : list nat)
    (h c : pyobj A) (o_ls : list (pyobj A)) :
  raises (PeepholeLSTM.loop p x_in (i :: idx) h c o_ls).
Proof. cbn [PeepholeLSTM.loop]. apply raises_bind, step_raises. Qed.

Lemma peephole_forward_full_raises_at
    (phd pod : LSTMParams A -> result Z) (p : LSTMParams A) (x_in : tensor A)
    (T : nat) :
  nth_error (shape x_in) 1 = Some T -> 1 <= T ->
  raises (PeepholeLSTM.forward_full phd pod p x_in).
Proof.
  intros E HT. unfold PeepholeLSTM.forward_full. rewrite E.
  do 6 (apply raises_bind_all; intros ?).
  apply raises_bind.
  destruct T as [|T]; [lia|]. cbn [seq]. apply loop_raises.
Qed.

Lemma peephole_forward_batch_raises (p : LSTMParams A) (x_batch : tensor A) :
  raises (PeepholeLSTM.forward_batch p x_batch).
Proof.
  unfold PeepholeLSTM.forward_batch. apply raises_bind.
  destruct x_batch as [a|l]; eexists; reflexivity.
Qed.
End ArityFacts.

(** C9. For every parameters and every input with at least one timestep,
    [PeepholeLSTM.forward_full] raises instead of returning an output
    sequence: its call of [LSTM.forward] passes five positional arguments to
    a function of two, which is a [TypeError]; and
    [PeepholeLSTM.forward_batch], which maps the three-argument
    [LSTM.forward_full] over two arguments, raises on every batch. *)
Theorem peephole_forward_full_raises {A : Type} {N : Num A} {Ac : Activation A}
    (phd pod : LSTMParams A -> result Z) (p : LSTMParams A) (x_in : tensor A)
    (T : nat) :
  nth_error (shape x_in) 1 = Some T -> 1 <= T ->
  raises (PeepholeLSTM.forward_full phd pod p x_in)
  /\ (forall i h c,
         py_call LSTMCall.forward
           [PParams p; PArray (slice1 i x_in); h; c; PArray (of_rank2 (wout p))]
         = Raise TypeError)
  /\ (forall x_batch, raises (PeepholeLSTM.forward_batch p x_batch)).
Proof.
  intros E HT. split; [exact (peephole_forward_full_raises_at phd pod p x_in E HT)|].
  split.
  - intros i h c. apply forward_five_arguments.
  - intros x_batch. apply peephole_forward_batch_raises.
Qed.

Lemma peephole_forward_full_raises_witness :
  raises (PeepholeLSTM.forward_full (fun _ => Ok 2%Z) (fun _ => Ok 1%Z)
            ex_params (of_rank2 [[TVar 1; TVar 2]; [TVar 3; TVar 4]])).
Proof.
  refine (proj1 (@peephole_forward_full_raises term _ _ _ _ ex_params
                   (of_rank2 [[TVar 1; TVar 2]; [TVar 3; TVar 4]]) 2 _ _));
    [reflexivity | lia].
Defined.

(** C2 (the code diverges). [PeepholeLSTM.backward] differentiates
    [LSTM.mse], a function of four arguments, at three arguments; whatever
    transformation [jax.jacobian] is, as long as it fails when the function
    it evaluates fails, no gradient is returned. *)
Theorem peephole_backward_raises {A : Type} {N : Num A} {Ac : Activation A}
    (jacobian : callable A -> list nat -> list (pyobj A) -> result (pyobj A))
    (p : LSTMParams A) (x_batch y_batch : tensor A) :
  (forall f argnums args, raises (py_call f args) -> raises (jacobian f argnums args)) ->
  raises (PeepholeLSTM.backward jacobian p x_batch y_batch).
Proof.
  intros Hj. unfold PeepholeLSTM.backward. apply Hj.
  exists TypeError. apply mse_three_arguments.
Qed.

Lemma peephole_backward_raises_witness :
  raises (PeepholeLSTM.backward (fun f _ args => py_call f args) ex_params
            (Axis []) (Axis [])).
Proof.
  apply (@peephole_backward_raises term _ _ (fun f _ args => py_call f args)).
  intros f argnums args Hr. exact Hr.
Defined.

(** ** Parameter initialisation and model construction *)

Section InitFacts.
Context {A : Type}.
Variable rng_normal : prng_key -> Z * Z -> result (matrix A).

Lemma init_params_same_draws (seed i h o : Z) (archi : LSTMArchiParams)
    (p : LSTMParams A) :
  LSTM_init_params rng_normal seed i h o = Ok (archi, p) ->
  (wf p = wi p /\ wi p = wc p /\ wc p = wo p)
  /\ (uf p = ui p /\ ui p = uc p /\ uc p = uo p)
  /\ (bf p = bi p /\ bi p = bc p /\ bc p = bo p).
Proof.
  unfold LSTM_init_params.
  destruct (rng_normal (PRNGKey seed) (h, i)) as [w|e]; cbn [bind]; [|discriminate].
  destruct (rng_normal (PRNGKey seed) (h, h)) as [u|e]; cbn [bind]; [|discriminate].
  destruct (rng_normal (PRNGKey seed) (h, 1%Z)) as [b|e]; cbn [bind]; [|discriminate].
  destruct (rng_normal (PRNGKey seed) (o, h)) as [w'|e]; cbn [bind]; [|discriminate].
  intros E. inversion E; subst. simpl. repeat split.
Qed.

(** When the initialiser returns arrays of the requested shapes, the
    parameters have the shapes of the standard variant, for both classes. *)
Lemma init_params_well_shaped (seed : Z) (id hd od : nat)
    (archi : LSTMArchiParams) (p : LSTMParams A) :
  (forall k r c m, rng_normal k (Z.of_nat r, Z.of_nat c) = Ok m -> has_shape r c m) ->
  PeepholeLSTM_init_params rng_normal seed (Z.of_nat id) (Z.of_nat hd) (Z.of_nat od)
  = Ok (archi, p) ->
  well_shaped id hd od p /\ hidden_dim archi = Z.of_nat hd.
Proof.
  intros Hrng. unfold PeepholeLSTM_init_params, LSTM_init_params.
  change 1%Z with (Z.of_nat 1).
  destruct (rng_normal (PRNGKey seed) (Z.of_nat hd, Z.of_nat id)) as [w|e] eqn:Ew;
    cbn [bind]; [|discriminate].
  destruct (rng_normal (PRNGKey seed) (Z.of_nat hd, Z.of_nat hd)) as [u|e] eqn:Eu;
    cbn [bind]; [|discriminate].
  destruct (rng_normal (PRNGKey seed) (Z.of_nat hd, Z.of_nat 1)) as [b|e] eqn:Eb;
    cbn [bind]; [|discriminate].
  destruct (rng_normal (PRNGKey seed) (Z.of_nat od, Z.of_nat hd)) as [w'|e] eqn:Eo;
    cbn [bind]; [|discriminate].
  intros E. inversion E; subst. split; [|reflexivity].
  pose proof (Hrng _ _ _ _ Ew). pose proof (Hrng _ _ _ _ Eu).
  pose proof (Hrng _ _ _ _ Eb). pose proof (Hrng _ _ _ _ Eo).
  constructor; [constructor|..]; assumption.
Qed.

Lemma mapM_const_ok {X Y : Type} (y : Y) (l : list X) :
  mapM (fun _ => Ok y) l = Ok (repeat y (length l)).
Proof.
  induction l as [|x l IH]; [reflexivity|]. simpl. rewrite IH. reflexivity.
Qed.

Lemma model_init_params_raises_iff
    (i h o n : Z) (t : string) (seed : Z) :
  raises (LSTMModel_init_params rng_normal i h o n t seed)
  <-> ((n < 1)%Z
       \/ (t <> "vanilla"%string /\ t <> "peephole"%string)
       \/ raises (LSTM_init_params rng_normal seed i h o)).
Proof.
  unfold LSTMModel_init_params, PeepholeLSTM_init_params.
  destruct (Z.ltb_spec n 1) as [Hn|Hn].
  { split; [intros _; left; exact Hn | intros _; exists AssertionError; reflexivity]. }
  assert (Hseq : exists m, seq 0 (Z.to_nat n) = 0 :: m).
  { destruct (Z.to_nat n) as [|k] eqn:Ek; [lia|]. eexists. reflexivity. }
  destruct Hseq as [m ->].
  assert (Hlayers :
    raises (layers <- mapM (fun _ : nat => LSTM_init_params rng_normal seed i h o)
                           (0 :: m) ;;
            Ok (mkModel n t layers))
    <-> raises (LSTM_init_params rng_normal seed i h o)).
  { destruct (LSTM_init_params rng_normal seed i h o) as [lp|e] eqn:E.
    - rewrite mapM_const_ok. cbn [bind].
      split; intros [e He]; discriminate.
    - cbn [mapM bind]. split; intros _; exists e; reflexivity. }
  destruct (String.eqb_spec t "vanilla") as [Ev|Ev].
  { rewrite Hlayers. split; [intros Hr; right; right; exact Hr|].
    intros [Hlt|[[Hv _]|Hr]]; [lia | contradiction | exact Hr]. }
  destruct (String.eqb_spec t "peephole") as [Ep|Ep].
  { rewrite Hlayers. split; [intros Hr; right; right; exact Hr|].
    intros [Hlt|[[_ Hv]|Hr]]; [lia | contradiction | exact Hr]. }
  split; [intros _; right; left; split; assumption|].
  intros _. exists ValueError. reflexivity.
Qed.
End InitFacts.

(** C10. [LSTM.init_params], which both variants use, draws every tensor
    with the same key: whenever it returns, the tensors of equal shape are
    identical, [wf = wi = wc = wo], [uf = ui = uc = uo] and
    [bf = bi = bc = bo]. *)
Theorem init_params_gates_identical {A : Type}
    (rng_normal : prng_key -> Z * Z -> result (matrix A))
    (seed i h o : Z) (archi : LSTMArchiParams) (p : LSTMParams A) :
  PeepholeLSTM_init_params rng_normal seed i h o = Ok (archi, p)
  \/ LSTM_init_params rng_normal seed i h o = Ok (archi, p) ->
  (wf p = wi p /\ wi p = wc p /\ wc p = wo p)
  /\ (uf p = ui p /\ ui p = uc p /\ uc p = uo p)
  /\ (bf p = bi p /\ bi p = bc p /\ bc p = bo p).
Proof.
  intros [E|E]; exact (init_params_same_draws rng_normal seed i h o E).
Qed.

Lemma init_params_gates_identical_witness :
  (wf ex_init_params = wi ex_init_params
   /\ wi ex_init_params = wc ex_init_params
   /\ wc ex_init_params = wo ex_init_params)
  /\ (uf ex_init_params = ui ex_init_params
      /\ ui ex_init_params = uc ex_init_params
      /\ uc ex_init_params = uo ex_init_params)
  /\ (bf ex_init_params = bi ex_init_params
      /\ bi ex_init_params = bc ex_init_params
      /\ bc ex_init_params = bo ex_init_params).
Proof.
  apply (@init_params_gates_identical term ex_rng 0 2 2 1 ex_init_archi ex_init_params).
  right. vm_compute. reflexivity.
Defined.

(** C8 (amended). [LSTMModel.init_params] raises exactly when [num_lstm] is
    below one (an [AssertionError]), or the selector is neither ['vanilla']
    nor ['peephole'] (a [ValueError]), or the parameter initialisation itself
    raises; the constructor does not check the sign of the dimensions. *)
Theorem model_init_params_errors {A : Type}
    (rng_normal : prng_key -> Z * Z -> result (matrix A))
    (i h o n : Z) (t : string) (seed : Z) :
  (raises (LSTMModel_init_params rng_normal i h o n t seed)
   <-> ((n < 1)%Z
        \/ (t <> "vanilla"%string /\ t <> "peephole"%string)
        \/ raises (LSTM_init_params rng_normal seed i h o)))
  /\ ((n < 1)%Z ->
      LSTMModel_init_params rng_normal i h o n t seed = Raise AssertionError)
  /\ ((1 <= n)%Z -> t <> "vanilla"%string -> t <> "peephole"%string ->
      LSTMModel_init_params rng_normal i h o n t seed = Raise ValueError).
Proof.
  split; [apply model_init_params_raises_iff|].
  unfold LSTMModel_init_params. split.
  - intros Hn. destruct (Z.ltb_spec n 1); [reflexivity | lia].
  - intros Hn Hv Hp. destruct (Z.ltb_spec n 1); [lia|].
    destruct (String.eqb_spec t "vanilla"); [contradiction|].
    destruct (String.eqb_spec t "peephole"); [contradiction|]. reflexivity.
Qed.

(** C8, as stated, fails: the selector [standard] is rejected although the
    dimensions are positive, and a valid selector with positive dimensions
    is rejected when [num_lstm] is zero. *)
Lemma model_init_params_claim_fails :
  ~ (raises (LSTMModel_init_params ex_rng 3 4 2 1 "standard" 0)
     <-> (~ In "standard"%string ["standard"%string; "peephole"%string]
          \/ (3 <= 0)%Z \/ (4 <= 0)%Z \/ (2 <= 0)%Z))
  /\ ~ (raises (LSTMModel_init_params ex_rng 3 4 2 0 "peephole" 0)
        <-> (~ In "peephole"%string ["standard"%string; "peephole"%string]
             \/ (3 <= 0)%Z \/ (4 <= 0)%Z \/ (2 <= 0)%Z)).
Proof.
  split; intros [Hraise _].
  - destruct Hraise as [Hin|[?|[?|?]]]; try lia.
    + exists ValueError. reflexivity.
    + apply Hin. left. reflexivity.
  - destruct Hraise as [Hin|[?|[?|?]]]; try lia.
    + exists AssertionError. reflexivity.
    + apply Hin. right. left. reflexivity.
Qed.


(** * Further properties of the recurrence *)

(** ** The sequence scan, whatever the shapes *)

Lemma forward_keeps_params {A : Type} {N : Num A} {Ac : Activation A}
    (p p' : LSTMParams A) (h c h' c' x out : matrix A) :
  LSTM.forward (p, h, c) x = Ok ((p', h', c'), out) -> p' = p.
Proof.
  unfold LSTM.forward.
  destruct (LSTM.h_cur p x h c) as [[h_t c_t]|e]; cbn [bind]; [|discriminate].
  destruct (matmul (wout p) h_t) as [o|e]; cbn [bind]; [|discriminate].
  intros E. inversion E. reflexivity.
Qed.

(** X1. Whenever [LSTM.forward_full] returns, the hidden dimension is not
    negative, the leading axis of [x_in] is not empty, and there is exactly
    one output per timestep of its first entry, whatever the shapes of the
    parameters and of the inputs. *)
Theorem forward_full_returns_one_output_per_step
    {A : Type} {N : Num A} {Ac : Activation A}
    (archi : LSTMArchiParams) (p : LSTMParams A)
    (x_in : list (list (matrix A))) (out : list (matrix A)) :
  LSTM.forward_full archi p x_in = Ok out ->
  (0 <= hidden_dim archi)%Z
  /\ exists xs rest, x_in = xs :: rest /\ length out = length xs.
Proof.
  unfold LSTM.forward_full, zeros.
  destruct (Z.ltb_spec (hidden_dim archi) 0) as [Hneg|Hpos];
    cbn [orb bind]; [discriminate|].
  replace (1 <? 0)%Z with false by reflexivity. cbn [bind].
  destruct x_in as [|xs rest]; cbn [index0 bind]; [discriminate|].
  destruct (scan LSTM.forward _ xs) as [[final outs]|e] eqn:E; cbn [bind];
    [|discriminate].
  intros E'. inversion E'; subst. split; [exact Hpos|].
  exists xs, rest. split; [reflexivity|]. exact (scan_length _ _ _ E).
Qed.

Lemma forward_full_returns_one_output_per_step_witness :
  (0 <= hidden_dim ex_archi)%Z
  /\ exists xs rest,
      [[col ex_x; col ex_h]] = xs :: rest
      /\ length (match LSTM.forward_full ex_archi ex_params [[col ex_x; col ex_h]] with
                 | Ok out => out
                 | Raise _ => []
                 end) = length xs.
Proof.
  apply (@forward_full_returns_one_output_per_step term _ _ ex_archi ex_params).
  vm_compute. reflexivity.
Defined.

(** X2. The scan never changes the parameters it carries: the carry that
    [jax.lax.scan] hands back after any number of steps of [LSTM.forward]
    holds the parameters it started with. *)
Theorem scan_keeps_params {A : Type} {N : Num A} {Ac : Activation A}
    (xs : list (matrix A)) (p p' : LSTMParams A) (h c h' c' : matrix A)
    (out_ls : list (matrix A)) :
  scan LSTM.forward (p, h, c) xs = Ok ((p', h', c'), out_ls) -> p' = p.
Proof.
  revert h c out_ls. induction xs as [|x xs IH]; intros h c out_ls; cbn [scan].
  - intros E. inversion E. reflexivity.
  - destruct (LSTM.forward (p, h, c) x) as [[[[p1 h1] c1] o]|e] eqn:E1;
      cbn [bind]; [|discriminate].
    rewrite (forward_keeps_params _ _ _ _ E1).
    destruct (scan LSTM.forward (p, h1, c1) xs) as [[[[p2 h2] c2] os]|e] eqn:E2;
      cbn [bind]; [|discriminate].
    intros E. inversion E; subst. exact (IH _ _ _ E2).
Qed.

Lemma scan_keeps_params_witness :
  fst (fst (fst (match scan LSTM.forward
                         (ex_params, col ex_h, col ex_c) [col ex_x; col ex_x] with
                 | Ok r => r
                 | Raise _ => ((ex_peephole_params, [], []), [])
                 end))) = ex_params.
Proof.
  destruct (scan LSTM.forward (ex_params, col ex_h, col ex_c) [col ex_x; col ex_x])
    as [[[[p' h'] c'] outs]|e] eqn:E.
  - exact (@scan_keeps_params term _ _ _ _ _ _ _ _ _ _ E).
  - vm_compute in E. discriminate.
Defined.

Lemma scan_forward_final_shape {A : Type} {N : Num A} {Ac : Activation A}
    (id hd od : nat) (p : LSTMParams A) (xs : list (matrix A)) :
  well_shaped id hd od p -> 0 < id -> 0 < hd -> 0 < od ->
  Forall (has_shape id 1) xs ->
  forall Hm Cm, has_shape hd 1 Hm -> has_shape hd 1 Cm ->
  exists H' C' out_ls,
    scan LSTM.forward (p, Hm, Cm) xs = Ok ((p, H', C'), out_ls)
    /\ has_shape hd 1 H' /\ has_shape hd 1 C'.
Proof.
  intros Hp Hid Hhd Hod.
  induction 1 as [|X xs HX _ IH]; intros Hm Cm HH HC.
  - exists Hm, Cm, []. auto.
  - destruct (forward_shape Hp Hid Hhd Hod HX HH HC)
      as [H1 [C1 [out [E [SH [SC _]]]]]].
    destruct (IH H1 C1 SH SC) as [H' [C' [outs [E' [SH' SC']]]]].
    exists H', C', (out :: outs). cbn [scan]. rewrite E. cbn [bind].
    rewrite E'. cbn [bind]. auto.
Qed.

(** X3. State threading: for parameters and inputs of the shapes of the
    architecture, scanning a sequence [xs ++ ys] gives the outputs of [xs]
    followed by the outputs of [ys] scanned from the state reached after
    [xs]. *)
Theorem forward_full_app {A : Type} {N : Num A} {Ac : Activation A}
    (id hd od : nat) (archi : LSTMArchiParams) (p : LSTMParams A)
    (xs ys : list (matrix A)) (rest : list (list (matrix A))) :
  well_shaped id hd od p -> hidden_dim archi = Z.of_nat hd ->
  0 < id -> 0 < hd -> 0 < od ->
  Forall (has_shape id 1) xs -> Forall (has_shape id 1) ys ->
  exists s1 s2 o1 o2,
    scan LSTM.forward (p, col (repeat zero hd), col (repeat zero hd)) xs = Ok (s1, o1)
    /\ scan LSTM.forward s1 ys = Ok (s2, o2)
    /\ LSTM.forward_full archi p (xs :: rest) = Ok o1
    /\ LSTM.forward_full archi p ((xs ++ ys) :: rest) = Ok (o1 ++ o2).
Proof.
  intros Hp Hdim Hid Hhd Hod Hxs Hys.
  assert (Hz : has_shape hd 1 (col (repeat (@zero A N) hd))).
  { rewrite <- (repeat_length (@zero A N) hd) at 1. apply col_has_shape. }
  destruct (scan_forward_final_shape Hp Hid Hhd Hod Hxs Hz Hz)
    as [H1 [C1 [o1 [E1 [SH SC]]]]].
  destruct (scan_forward_final_shape Hp Hid Hhd Hod Hys SH SC)
    as [H2 [C2 [o2 [E2 _]]]].
  exists (p, H1, C1), (p, H2, C2), o1, o2.
  unfold LSTM.forward_full. rewrite Hdim, zeros_col. cbn [bind index0].
  rewrite scan_app, E1. cbn [bind fst snd]. rewrite E2. cbn [bind fst snd].
  auto.
Qed.

Lemma forward_full_app_witness :
  exists o1 o2,
    LSTM.forward_full ex_archi ex_params ([col ex_x] :: []) = Ok o1
    /\ LSTM.forward_full ex_archi ex_params (([col ex_x] ++ [col ex_h]) :: [])
       = Ok (o1 ++ o2).
Proof.
  destruct (@forward_full_app term _ _ 2 2 1 ex_archi ex_params
              [col ex_x] [col ex_h] [])
    as [s1 [s2 [o1 [o2 [_ [_ [E1 E2]]]]]]];
    [shape_solve | reflexivity | lia | lia | lia | shape_solve | shape_solve |].
  exists o1, o2. split; [exact E1 | exact E2].
Defined.

(** ** The batch executor, whatever the shapes *)

Lemma forward_batch_cons_ok {A : Type} {N : Num A} {Ac : Activation A}
    (archi : LSTMArchiParams) (p : LSTMParams A)
    (x_in : list (list (matrix A))) (x_batch : list (list (list (matrix A))))
    (out : list (matrix A)) :
  LSTM.forward_batch archi p (x_in :: x_batch) = Ok out
  <-> exists o' s out',
        LSTM.forward_full archi p x_in = Ok o'
        /\ mapM (mapM squeeze_row) o' = Ok s
        /\ LSTM.forward_batch archi p x_batch = Ok out'
        /\ out = s :: out'.
Proof.
  unfold LSTM.forward_batch, squeeze3. cbn [mapM].
  destruct (LSTM.forward_full archi p x_in) as [o'|e]; cbn [bind].
  2: { split; [discriminate|]. intros [o2 [s2 [out' [E1 _]]]]. discriminate. }
  destruct (mapM (LSTM.forward_full archi p) x_batch) as [os|e]; cbn [bind mapM].
  2: { split; [discriminate|]. intros [o2 [s2 [out' [_ [_ [E3 _]]]]]]. discriminate. }
  destruct (mapM (mapM squeeze_row) o') as [s|e] eqn:Es; cbn [bind].
  2: { split; [discriminate|]. intros [o2 [s2 [out' [E1 [E2 _]]]]].
       inversion E1; subst. rewrite Es in E2. discriminate. }
  destruct (mapM (mapM (mapM squeeze_row)) os) as [ss|e]; cbn [bind].
  2: { split; [discriminate|]. intros [o2 [s2 [out' [_ [_ [E3 _]]]]]]. discriminate. }
  split.
  - intros E. inversion E; subst. exists o', s, ss. auto.
  - intros [o2 [s2 [out' [E1 [E2 [E3 ->]]]]]].
    inversion E1; subst. rewrite Es in E2. inversion E2; subst.
    inversion E3; subst. reflexivity.
Qed.


(** X5. Of each batch entry only the first item along its leading axis is
    read ([x_in[0]]): dropping the other items does not change the result of
    [LSTM.forward_batch]. *)
Theorem forward_batch_reads_first_items {A : Type} {N : Num A} {Ac : Activation A}
    (archi : LSTMArchiParams) (p : LSTMParams A)
    (x_batch : list (list (list (matrix A)))) :
  LSTM.forward_batch archi p (map (firstn 1) x_batch)
  = LSTM.forward_batch archi p x_batch.
Proof.
  unfold LSTM.forward_batch. f_equal.
  induction x_batch as [|x_in x_batch IH]; [reflexivity|].
  cbn [map mapM]. rewrite IH. f_equal.
  unfold LSTM.forward_full. destruct x_in as [|xs rest]; reflexivity.
Qed.

(** ** Shape mismatches in the cell step *)

Lemma matmul_col_mismatch {A : Type} {N : Num A}
    (r c : nat) (W : matrix A) (v : list A) :
  has_shape r c W -> 0 < r -> length v <> c ->
  matmul W (col v) = Raise TypeError.
Proof.
  intros HW Hr Hv.
  destruct (has_shape_rectangular HW Hr) as [_ Hcols].
  unfold matmul, nrows. rewrite Hcols, col_length.
  replace (c =? length v) with false
    by (symmetry; apply Nat.eqb_neq; intros E; apply Hv; symmetry; exact E).
  rewrite andb_false_r. reflexivity.
Qed.

(** X6. A hidden state or an input vector of the wrong length makes the
    cell step [LSTM.forward] raise: the first matrix product that meets it
    fails, and nothing is stretched or cut to fit. *)
Theorem forward_wrong_length_raises {A : Type} {N : Num A} {Ac : Activation A}
    (id hd od : nat) (p : LSTMParams A) (x h c : list A) :
  well_shaped id hd od p -> 0 < id -> 0 < hd ->
  length h <> hd \/ (length h = hd /\ length x <> id) ->
  raises (LSTM.forward (p, col h, col c) (col x)).
Proof.
  intros Hp Hid Hhd Hbad. exists TypeError.
  unfold LSTM.forward, LSTM.h_cur, LSTM.o_cur.
  destruct Hbad as [Hh|[Hh Hx]].
  - rewrite (matmul_col_mismatch h (ws_uo Hp) Hhd Hh). reflexivity.
  - rewrite (matmul_col h (ws_uo Hp) Hhd Hhd Hh). cbn [bind].
    rewrite (matmul_col_mismatch x (ws_wo Hp) Hhd Hx). reflexivity.
Qed.

Lemma forward_wrong_length_raises_witness :
  raises (LSTM.forward (ex_params, col ex_h, col ex_c)
            (col [TVar 1; TVar 2; TVar 3])).
Proof.
  apply (@forward_wrong_length_raises term _ _ 2 2 1);
    [shape_solve | lia | lia |].
  right. split; [reflexivity | simpl; lia].
Defined.

Lemma zipM_col_scalar {A : Type} {N : Num A} (op : A -> A -> A) (u : list A) (a : A) :
  mapM (fun row => broadcast (fun x y => Ok (op x y)) row [a]) (col u)
  = Ok (col (map (fun x => op x a) u)).
Proof.
  induction u as [|b u IH]; [reflexivity|].
  cbn [col map mapM]. unfold col in IH. rewrite IH. reflexivity.
Qed.

Lemma vzip_repeat {A : Type} {N : Num A} (op : A -> A -> A) (u : list A) (a : A) :
  vzip op u (repeat a (length u)) = map (fun x => op x a) u.
Proof.
  unfold vzip. induction u as [|b u IH]; [reflexivity|].
  simpl. rewrite IH. reflexivity.
Qed.

(** An array of shape [(n, 1)] against one of shape [(1, 1)]: the single
    element is stretched along the rows. *)
Lemma elementwise_col_scalar {A : Type} {N : Num A}
    (op : A -> A -> A) (u : list A) (a : A) :
  0 < length u ->
  elementwise op (col u) (col [a]) = Ok (col (vzip op u (repeat a (length u)))).
Proof.
  intros Hu. rewrite vzip_repeat. unfold elementwise, broadcast at 1.
  rewrite col_length. cbn [col map length].
  destruct (Nat.eqb_spec (length u) 1) as [E|E].
  - destruct u as [|b [|b' u]]; simpl in E; try lia. reflexivity.
  - destruct u as [|b [|b' u]]; simpl in Hu, E; try lia.
    exact (zipM_col_scalar op (b :: b' :: u) a).
Qed.

(** X7. A previous cell state of shape [(1, 1)] is not rejected by the cell
    step: [f_t * c_prev] stretches its single element over the hidden
    dimension, and [LSTM.forward] returns what it returns for the cell state
    that repeats this element [hidden_dim] times. *)
Theorem forward_broadcasts_unit_cell_state
    {A : Type} {N : Num A} {Ac : Activation A}
    (id hd od : nat) (p : LSTMParams A) (x h : list A) (a : A) :
  well_shaped id hd od p -> 0 < id -> 0 < hd ->
  length x = id -> length h = hd ->
  LSTM.forward (p, col h, col [a]) (col x)
  = LSTM.forward (p, col h, col (repeat a hd)) (col x).
Proof.
  intros Hp Hid Hhd Hx Hh.
  assert (Hc : LSTM.c_cur p (col x) (col h) (col [a])
               = LSTM.c_cur p (col x) (col h) (col (repeat a hd))).
  { pose proof (ws_update Hp) as Hu. unfold LSTM.c_cur.
    rewrite (i_cur_col Hu Hid Hhd x h Hh Hx), (c_cur_hat_col Hu Hid Hhd x h Hh Hx),
      (f_cur_col Hu Hid Hhd x h Hh Hx). cbn [bind].
    assert (Lf := @spec_gate_length _ _ id hd Hid Hhd sigmoid _ _ _ h x
                    (ws_uf Hu) (ws_wf Hu) (ws_bf Hu)).
    unfold mmul.
    rewrite elementwise_col_scalar by lia.
    rewrite (elementwise_col mul _ (repeat a hd)) by (rewrite repeat_length; lia).
    rewrite Lf. reflexivity. }
  unfold LSTM.forward, LSTM.h_cur. rewrite Hc. reflexivity.
Qed.

Lemma forward_broadcasts_unit_cell_state_witness :
  LSTM.forward (ex_params, col ex_h, col [TVar 9]) (col ex_x)
  = LSTM.forward (ex_params, col ex_h, col (repeat (TVar 9) 2)) (col ex_x).
Proof.
  apply (@forward_broadcasts_unit_cell_state term _ _ 2 2 1);
    [shape_solve | lia | lia | reflexivity | reflexivity].
Defined.

(** ** The gates of the peephole variant *)

Lemma peephole_gate_col {A : Type} {N : Num A} {Ac : Activation A}
    (id hd : nat) (W b : matrix A) (x h c : list A) :
  0 < id -> 0 < hd ->
  has_shape hd (hd + hd + id) W -> has_shape hd 1 b ->
  length x = id -> length h = hd -> length c = hd ->
  (v <- concatenate0 [col c; col h; col x] ;;
   a <- matmul W v ;;
   t <- madd a b ;;
   Ok (mmap sigmoid t))
  = Ok (col (spec_peephole_gate W (uncol b) c h x)).
Proof.
  intros Hid Hhd HW Hb Hx Hh Hc.
  rewrite (concatenate0_col Hid Hhd) by lia. cbn [bind].
  assert (Hlen : length (c ++ h ++ x) = hd + hd + id)
    by (rewrite !length_app; lia).
  rewrite (matmul_col (c ++ h ++ x) HW Hhd) by lia. cbn [bind].
  rewrite <- (col_uncol Hb) at 1.
  unfold madd. rewrite (elementwise_col add).
  - cbn [bind]. rewrite mmap_col. reflexivity.
  - rewrite mv_length, uncol_length. destruct HW as [-> _], Hb as [-> _].
    reflexivity.
Qed.

(** X8. With weight matrices of shape [hidden_dim × (2·hidden_dim +
    input_dim)], the forget and input gates that [PeepholeLSTM] defines are
    [sigmoid(W · concat(c_prev, h_prev, x_cur) + b)]. *)
Theorem peephole_gates_are_spec {A : Type} {N : Num A} {Ac : Activation A}
    (id hd : nat) (p : LSTMParams A) (x h c : list A) :
  0 < id -> 0 < hd ->
  has_shape hd (hd + hd + id) (wf p) -> has_shape hd 1 (bf p) ->
  has_shape hd (hd + hd + id) (wi p) -> has_shape hd 1 (bi p) ->
  length x = id -> length h = hd -> length c = hd ->
  PeepholeLSTM.f_cur p (col x) (col h) (col c)
  = Ok (col (spec_peephole_gate (wf p) (uncol (bf p)) c h x))
  /\ PeepholeLSTM.i_cur p (col x) (col h) (col c)
     = Ok (col (spec_peephole_gate (wi p) (uncol (bi p)) c h x)).
Proof.
  intros Hid Hhd Hwf Hbf Hwi Hbi Hx Hh Hc. split.
  - exact (@peephole_gate_col _ _ _ id hd (wf p) (bf p) x h c Hid Hhd Hwf Hbf Hx Hh Hc).
  - exact (@peephole_gate_col _ _ _ id hd (wi p) (bi p) x h c Hid Hhd Hwi Hbi Hx Hh Hc).
Qed.

Lemma peephole_gates_are_spec_witness :
  PeepholeLSTM.f_cur
    (mkParams (sym_matrix 100 2 6) [] (sym_matrix 120 2 1)
              (sym_matrix 200 2 6) [] (sym_matrix 220 2 1)
              [] [] [] [] [] [] [])
    (col ex_x) (col ex_h) (col ex_c)
  = Ok (col (spec_peephole_gate (sym_matrix 100 2 6) (uncol (sym_matrix 120 2 1))
               ex_c ex_h ex_x)).
Proof.
  refine (proj1 (@peephole_gates_are_spec term _ _ 2 2
                   (mkParams (sym_matrix 100 2 6) [] (sym_matrix 120 2 1)
                             (sym_matrix 200 2 6) [] (sym_matrix 220 2 1)
                             [] [] [] [] [] [] [])
                   ex_x ex_h ex_c _ _ _ _ _ _ _ _ _));
    try lia; try reflexivity; shape_solve.
Defined.

Lemma peephole_gate_mismatch {A : Type} {N : Num A} {Ac : Activation A}
    (id hd : nat) (W b : matrix A) (x h c : list A) :
  0 < id -> 0 < hd -> has_shape hd id W ->
  length x = id -> length h = hd -> length c = hd ->
  (v <- concatenate0 [col c; col h; col x] ;;
   a <- matmul W v ;;
   t <- madd a b ;;
   Ok (mmap sigmoid t))
  = Raise TypeError.
Proof.
  intros Hid Hhd HW Hx Hh Hc.
  rewrite (concatenate0_col Hid Hhd) by lia. cbn [bind].
  rewrite (matmul_col_mismatch (c ++ h ++ x) HW Hhd); [reflexivity|].
  rewrite !length_app. lia.
Qed.

(** X9. On parameters of the shapes [init_params] gives (weights of shape
    [hidden_dim × input_dim]) the gates of [PeepholeLSTM] and its cell step
    [PeepholeLSTM.forward] raise: the weights do not fit
    [concat(c, h_prev, x_cur)]. *)
Theorem peephole_cell_rejects_init_shapes
    {A : Type} {N : Num A} {Ac : Activation A}
    (id hd od : nat) (p : LSTMParams A) (w_out : matrix A) (x h c : list A) :
  well_shaped id hd od p -> 0 < id -> 0 < hd ->
  length x = id -> length h = hd -> length c = hd ->
  raises (PeepholeLSTM.f_cur p (col x) (col h) (col c))
  /\ raises (PeepholeLSTM.i_cur p (col x) (col h) (col c))
  /\ raises (PeepholeLSTM.o_cur p (col x) (col h) (col c))
  /\ raises (PeepholeLSTM.forward p (col x) (col h) (col c) w_out).
Proof.
  intros Hp Hid Hhd Hx Hh Hc. pose proof (ws_update Hp) as Hu.
  repeat split; exists TypeError.
  - exact (@peephole_gate_mismatch _ _ _ id hd (wf p) (bf p) x h c Hid Hhd (ws_wf Hu) Hx Hh Hc).
  - exact (@peephole_gate_mismatch _ _ _ id hd (wi p) (bi p) x h c Hid Hhd (ws_wi Hu) Hx Hh Hc).
  - exact (@peephole_gate_mismatch _ _ _ id hd (wo p) (bo p) x h c Hid Hhd (ws_wo Hp) Hx Hh Hc).
  - unfold PeepholeLSTM.forward, PeepholeLSTM.h_cur, PeepholeLSTM.c_cur.
    rewrite (c_cur_col Hu Hid Hhd x h c Hh Hx Hc). cbn [bind].
    pose proof (spec_c_cur_length Hu Hid Hhd x h c Hc) as Lc.
    unfold PeepholeLSTM.o_cur.
    rewrite (@peephole_gate_mismatch _ _ _ id hd (wo p) (bo p) x h _ Hid Hhd (ws_wo Hp) Hx Hh Lc).
    reflexivity.
Qed.

Lemma peephole_cell_rejects_init_shapes_witness :
  raises (PeepholeLSTM.forward ex_params (col ex_x) (col ex_h) (col ex_c)
            (wout ex_params)).
Proof.
  refine (proj2 (proj2 (proj2
            (@peephole_cell_rejects_init_shapes term _ _ 2 2 1 ex_params
               (wout ex_params) ex_x ex_h ex_c _ _ _ _ _ _))));
    try lia; try reflexivity; shape_solve.
Defined.

(** ** The loss on batches whose shapes differ *)

(** X10. When the target batch and the predicted batch hold different
    numbers of sequences, neither of them one, [LSTM.mse] raises: the
    difference [batch_out - y_batch] cannot be broadcast. *)
Theorem mse_batch_size_mismatch_raises {A : Type} {N : Num A} {Ac : Activation A}
    (archi : LSTMArchiParams) (p : LSTMParams A)
    (x_batch : list (list (list (matrix A)))) (y_batch out : list (matrix A)) :
  LSTM.forward_batch archi p x_batch = Ok out ->
  length out <> length y_batch -> length out <> 1 -> length y_batch <> 1 ->
  raises (LSTM.mse archi p x_batch y_batch).
Proof.
  intros E Hne Ho Hy. exists ValueError. unfold LSTM.mse. rewrite E. cbn [bind].
  unfold sub3, broadcast at 1.
  match goal with
  | |- context [?a =? ?b] => destruct (Nat.eqb_spec a b) as [Eq|_]
  end; [contradiction|].
  destruct out as [|o1 [|o2 out]]; destruct y_batch as [|y1 [|y2 y_batch]];
    simpl in Ho, Hy; try lia; reflexivity.
Qed.

Lemma mse_batch_size_mismatch_raises_witness :
  raises (LSTM.mse ex_archi ex_params ex_batch
            (ex_target ++ ex_target ++ ex_target)).
Proof.
  apply (@mse_batch_size_mismatch_raises term _ _ ex_archi ex_params ex_batch
           (ex_target ++ ex_target ++ ex_target) ex_out).
  - vm_compute. reflexivity.
  - vm_compute. discriminate.
  - vm_compute. discriminate.
  - vm_compute. discriminate.
Defined.

Lemma sub_matrices_same_shape {A : Type} {N : Num A} (m1 m2 : matrix A) :
  Forall2 (fun r1 r2 : list A => length r1 = length r2) m1 m2 ->
  broadcast (broadcast (fun x y => Ok (sub x y))) m1 m2 = Ok (sub_matrices m1 m2).
Proof.
  intros Fm. unfold sub_matrices.
  apply broadcast_zip with (P := fun r1 r2 : list A => length r1 = length r2);
    [|exact Fm].
  intros r1 r2 E. unfold sub_rows, vzip.
  apply broadcast_zip with (P := fun _ _ : A => True); [reflexivity|].
  apply Forall2_same_length, E.
Qed.

(** X11. A target batch that holds a single sequence is not rejected: it is
    broadcast against every predicted sequence of its shape, and [LSTM.mse]
    is the mean of the squared differences to that one target. *)
Theorem mse_broadcasts_single_target {A : Type} {N : Num A} {Ac : Activation A}
    (archi : LSTMArchiParams) (p : LSTMParams A)
    (x_batch : list (list (list (matrix A)))) (y : matrix A) (out : list (matrix A)) :
  LSTM.forward_batch archi p x_batch = Ok out ->
  2 <= length out ->
  Forall (fun o => Forall2 (fun r1 r2 : list A => length r1 = length r2) o y) out ->
  LSTM.mse archi p x_batch [y]
  = Ok (mean3 (square3 (map (fun o => sub_matrices o y) out))).
Proof.
  intros E Hlen Hshape. unfold LSTM.mse. rewrite E. cbn [bind].
  assert (Hsub : sub3 out [y] = Ok (map (fun o => sub_matrices o y) out)).
  { unfold sub3, broadcast at 1.
    destruct out as [|o1 [|o2 out]]; simpl in Hlen; try lia.
    cbn [length Nat.eqb].
    remember (o1 :: o2 :: out) as os eqn:Eos. clear Eos Hlen E.
    induction Hshape as [|o os Ho _ IH]; [reflexivity|].
    cbn [mapM map]. rewrite (sub_matrices_same_shape Ho). cbn [bind].
    rewrite IH. reflexivity. }
  rewrite Hsub. reflexivity.
Qed.

Lemma mse_broadcasts_single_target_witness :
  LSTM.mse ex_archi ex_params ex_batch [[[TVar 7]]]
  = Ok (mean3 (square3 (map (fun o => sub_matrices o [[TVar 7]]) ex_out))).
Proof.
  apply (@mse_broadcasts_single_target term _ _ ex_archi ex_params ex_batch
           [[TVar 7]] ex_out).
  - vm_compute. reflexivity.
  - vm_compute. lia.
  - vm_compute. repeat constructor.
Defined.

Lemma zeros_nonneg {A : Type} {N : Num A} (n : Z) :
  (0 <= n)%Z -> exists z : matrix A, zeros n 1 = Ok z.
Proof.
  intros Hn. unfold zeros.
  destruct (Z.ltb_spec n 0) as [Hneg|_]; [lia|]. cbn [orb].
  replace (1 <? 0)%Z with false by reflexivity. eexists. reflexivity.
Qed.

Lemma forward_batch_no_timestep {A : Type} {N : Num A} {Ac : Activation A}
    (archi : LSTMArchiParams) (p : LSTMParams A)
    (x_batch : list (list (list (matrix A)))) :
  (0 <= hidden_dim archi)%Z ->
  Forall (fun x_in => exists rest, x_in = [] :: rest) x_batch ->
  LSTM.forward_batch archi p x_batch = Ok (repeat [] (length x_batch)).
Proof.
  intros Hdim Hb. destruct (zeros_nonneg (A:=A) Hdim) as [z Hz].
  induction Hb as [|x_in x_batch [rest ->] _ IH]; [reflexivity|].
  apply forward_batch_cons_ok. exists [], [], (repeat [] (length x_batch)).
  repeat split; [|exact IH].
  unfold LSTM.forward_full. rewrite Hz. reflexivity.
Qed.

Lemma flatten3_no_timestep {A : Type} (n : nat) :
  flatten3 (repeat (@nil (list A)) n) = [].
Proof.
  unfold flatten3. induction n as [|n IH]; [reflexivity|]. simpl. exact IH.
Qed.

Lemma same_shape3_no_timestep {A : Type} (n : nat) :
  same_shape3 (repeat (@nil (list A)) n) (repeat [] n).
Proof.
  unfold same_shape3. induction n as [|n IH]; constructor; [constructor | exact IH].
Qed.

(** X12. A batch whose sequences hold no timestep has a loss over no
    element: for parameters of the shapes of the architecture, [LSTM.mse]
    returns the empty sum divided by a count of zero. *)
Theorem mse_no_timestep {A : Type} {N : Num A} {Ac : Activation A}
    (id hd od : nat) (archi : LSTMArchiParams) (p : LSTMParams A)
    (x_batch : list (list (list (matrix A)))) :
  well_shaped id hd od p -> hidden_dim archi = Z.of_nat hd ->
  0 < id -> 0 < hd -> 0 < od ->
  Forall (fun x_in => exists rest, x_in = [] :: rest) x_batch ->
  LSTM.mse archi p x_batch (repeat [] (length x_batch))
  = Ok (div zero (of_nat 0)).
Proof.
  intros _ Hdim _ _ _ Hb. unfold LSTM.mse.
  assert (Hnn : (0 <= hidden_dim archi)%Z) by lia.
  rewrite (@forward_batch_no_timestep _ _ _ archi p x_batch Hnn Hb). cbn [bind].
  pose proof (same_shape3_no_timestep (A:=A) (length x_batch)) as F.
  rewrite (sub3_same_shape F). cbn [bind].
  rewrite (mean3_is_spec_mse F). unfold spec_mse.
  rewrite flatten3_no_timestep. reflexivity.
Qed.

Lemma mse_no_timestep_witness :
  LSTM.mse ex_archi ex_params [[[]]; [[]]] (repeat [] 2)
  = Ok (div zero (of_nat 0)).
Proof.
  apply (@mse_no_timestep term _ _ 2 2 1 ex_archi ex_params [[[]]; [[]]]);
    [shape_solve | reflexivity | lia | lia | lia |].
  repeat constructor; eexists; reflexivity.
Defined.

(** ** Initialisation, and initialisation followed by a forward pass *)

Lemma sym_matrix_has_shape (base r c : nat) : has_shape r c (sym_matrix base r c).
Proof.
  unfold sym_matrix. split.
  - rewrite length_map, length_seq. reflexivity.
  - apply Forall_forall. intros row Hin. apply in_map_iff in Hin.
    destruct Hin as [i [<- _]]. rewrite length_map, length_seq. reflexivity.
Qed.

Lemma ex_rng_shapes (k : prng_key) (r c : nat) (m : matrix term) :
  ex_rng k (Z.of_nat r, Z.of_nat c) = Ok m -> has_shape r c m.
Proof.
  destruct k as [seed]. unfold ex_rng. cbn [fst snd].
  destruct ((Z.of_nat r <? 0) || (Z.of_nat c <? 0))%Z; [discriminate|].
  intros E. inversion E. rewrite !Nat2Z.id. apply sym_matrix_has_shape.
Qed.

(** X13. When the initialiser returns arrays of the shapes it is asked for,
    [init_params] (of both classes) returns the architecture record with the
    dimensions it was given and parameters of the shapes of the standard
    variant: every [W] is [hidden_dim × input_dim], every [U] is
    [hidden_dim × hidden_dim], every [b] is [hidden_dim × 1] and [Wout] is
    [output_dim × hidden_dim]. *)
Theorem init_params_shapes {A : Type}
    (rng_normal : prng_key -> Z * Z -> result (matrix A))
    (seed : Z) (id hd od : nat) (archi : LSTMArchiParams) (p : LSTMParams A) :
  (forall k r c m, rng_normal k (Z.of_nat r, Z.of_nat c) = Ok m -> has_shape r c m) ->
  LSTM_init_params rng_normal seed (Z.of_nat id) (Z.of_nat hd) (Z.of_nat od)
  = Ok (archi, p) ->
  well_shaped id hd od p
  /\ archi = mkArchi (PRNGKey seed) (Z.of_nat id) (Z.of_nat hd) (Z.of_nat od).
Proof.
  intros Hrng E.
  split; [exact (proj1 (init_params_well_shaped rng_normal seed id hd od Hrng E))|].
  revert E. unfold LSTM_init_params.
  repeat match goal with
         | |- context [rng_normal ?k ?shp] =>
             destruct (rng_normal k shp); cbn [bind]; [|discriminate]
         end.
  intros E. inversion E. reflexivity.
Qed.

Lemma init_params_shapes_witness :
  well_shaped 2 2 1 ex_init_params
  /\ ex_init_archi = mkArchi (PRNGKey 0) 2 2 1.
Proof.
  apply (@init_params_shapes term ex_rng 0 2 2 1 ex_init_archi ex_init_params).
  - exact ex_rng_shapes.
  - vm_compute. reflexivity.
Defined.

Lemma model_init_params_ok_inv {A : Type}
    (rng_normal : prng_key -> Z * Z -> result (matrix A))
    (i h o n : Z) (t : string) (seed : Z) (m : @LSTMModelParams A) :
  LSTMModel_init_params rng_normal i h o n t seed = Ok m ->
  (1 <= n)%Z
  /\ (t = "vanilla"%string \/ t = "peephole"%string)
  /\ exists layer,
      LSTM_init_params rng_normal seed i h o = Ok layer
      /\ m = mkModel n t (repeat layer (Z.to_nat n)).
Proof.
  unfold LSTMModel_init_params, PeepholeLSTM_init_params.
  destruct (Z.ltb_spec n 1) as [Hn|Hn]; [discriminate|].
  assert (Hlayers : forall m',
    (layers <- mapM (fun _ : nat => LSTM_init_params rng_normal seed i h o)
                    (seq 0 (Z.to_nat n)) ;;
     Ok (mkModel n t layers)) = Ok m' ->
    exists layer,
      LSTM_init_params rng_normal seed i h o = Ok layer
      /\ m' = mkModel n t (repeat layer (Z.to_nat n))).
  { intros m'. destruct (LSTM_init_params rng_normal seed i h o) as [layer|e].
    - rewrite mapM_const_ok, length_seq. cbn [bind]. intros E. inversion E.
      exists layer. auto.
    - destruct (Z.to_nat n) as [|k] eqn:Ek; [lia|]. cbn [seq mapM bind].
      discriminate. }
  destruct (String.eqb_spec t "vanilla") as [Ev|Ev].
  { intros E. split; [exact Hn|]. split; [left; exact Ev|]. exact (Hlayers m E). }
  destruct (String.eqb_spec t "peephole") as [Ep|Ep]; [|discriminate].
  intros E. split; [exact Hn|]. split; [right; exact Ep|]. exact (Hlayers m E).
Qed.

(** X14. When [LSTMModel.init_params] returns, [num_lstm] is at least one,
    the selector is ['vanilla'] or ['peephole'], and the model holds
    [num_lstm] layers that are all the same result of [LSTM.init_params] for
    the one seed, whichever of the two selectors was given. *)
Theorem model_init_params_layers {A : Type}
    (rng_normal : prng_key -> Z * Z -> result (matrix A))
    (i h o n : Z) (t : string) (seed : Z) (m : @LSTMModelParams A) :
  LSTMModel_init_params rng_normal i h o n t seed = Ok m ->
  (1 <= n)%Z
  /\ (t = "vanilla"%string \/ t = "peephole"%string)
  /\ exists layer,
      LSTM_init_params rng_normal seed i h o = Ok layer
      /\ m = mkModel n t (repeat layer (Z.to_nat n)).
Proof. exact (@model_init_params_ok_inv A rng_normal i h o n t seed m). Qed.

Lemma model_init_params_layers_witness :
  exists layer,
    LSTM_init_params ex_rng 0 2 2 1 = Ok layer
    /\ LSTMModel_init_params ex_rng 2 2 1 3 "peephole" 0
       = Ok (mkModel 3 "peephole" (repeat layer 3)).
Proof.
  destruct (LSTMModel_init_params ex_rng 2 2 1 3 "peephole" 0) as [m|e] eqn:E.
  - destruct (@model_init_params_layers term ex_rng 2 2 1 3 "peephole" 0 m E)
      as [_ [_ [layer [El ->]]]].
    exists layer. split; [exact El | reflexivity].
  - vm_compute in E. discriminate.
Defined.

(** X15. Initialisation composes with the forward pass and the loss: with an
    initialiser that returns the shapes it is asked for and positive
    dimensions, the parameters of [LSTM.init_params] make
    [LSTM.forward_batch] return one output per sequence on every batch of
    input vectors of length [input_dim], and [LSTM.mse] return the mean of
    the squared differences for every target of the shape of that output. *)
Theorem init_params_then_forward_batch {A : Type} {N : Num A} {Ac : Activation A}
    (rng_normal : prng_key -> Z * Z -> result (matrix A))
    (seed : Z) (id hd od : nat) (archi : LSTMArchiParams) (p : LSTMParams A)
    (x_batch : list (list (list (matrix A)))) :
  (forall k r c m, rng_normal k (Z.of_nat r, Z.of_nat c) = Ok m -> has_shape r c m) ->
  LSTM_init_params rng_normal seed (Z.of_nat id) (Z.of_nat hd) (Z.of_nat od)
  = Ok (archi, p) ->
  0 < id -> 0 < hd -> 0 < od ->
  Forall (sequence_entry id) x_batch ->
  exists out,
    LSTM.forward_batch archi p x_batch = Ok out
    /\ length out = length x_batch
    /\ forall y_batch,
        same_shape3 out y_batch ->
        LSTM.mse archi p x_batch y_batch = Ok (spec_mse out y_batch).
Proof.
  intros Hrng E Hid Hhd Hod Hb.
  destruct (init_params_well_shaped rng_normal seed id hd od Hrng E) as [Hp Hdim].
  destruct (forward_batch_map archi Hp Hdim Hid Hhd Hod Hb) as [outs [Eb F]].
  exists (map (map uncol) outs). split; [exact Eb|]. split.
  - rewrite length_map. symmetry. exact (Forall2_length F).
  - intros y_batch Fy. unfold LSTM.mse. rewrite Eb. cbn [bind].
    rewrite (sub3_same_shape Fy). cbn [bind].
    rewrite (mean3_is_spec_mse Fy). reflexivity.
Qed.

Lemma init_params_then_forward_batch_witness :
  exists out,
    LSTM.forward_batch ex_init_archi ex_init_params ex_batch = Ok out
    /\ length out = 2.
Proof.
  destruct (@init_params_then_forward_batch term _ _ ex_rng 0 2 2 1
              ex_init_archi ex_init_params ex_batch)
    as [out [E [L _]]].
  - exact ex_rng_shapes.
  - vm_compute. reflexivity.
  - lia.
  - lia.
  - lia.
  - repeat constructor; eexists _, _; (split; [reflexivity | shape_solve]).
  - exists out. split; [exact E | exact L].
Defined.

(** ** The entry points of the peephole variant *)

(** X16. [PeepholeLSTM.forward_full] returns only on an input without
    timesteps ([x_in.shape[1] = 0]) and when [params] carries non-negative
    [hidden_dim] and [output_dim] attributes; what it returns then is the
    empty array. *)
Theorem peephole_forward_full_returns_iff
    {A : Type} {N : Num A} {Ac : Activation A}
    (phd pod : LSTMParams A -> result Z) (p : LSTMParams A)
    (x_in t : tensor A) :
  PeepholeLSTM.forward_full phd pod p x_in = Ok t
  <-> (nth_error (shape x_in) 1 = Some 0
       /\ t = Axis []
       /\ exists hd od, phd p = Ok hd /\ pod p = Ok od
                        /\ (0 <= hd)%Z /\ (0 <= od)%Z).
Proof.
  split.
  - intros E.
    destruct (nth_error (shape x_in) 1) as [[|T]|] eqn:Es.
    + unfold PeepholeLSTM.forward_full in E. rewrite Es in E.
      destruct (phd p) as [hd|e]; cbn [bind] in E; [|discriminate].
      unfold zeros in E.
      destruct (Z.ltb_spec hd 0) as [Hneg|Hhd]; cbn [orb bind] in E;
        [discriminate|].
      replace (1 <? 0)%Z with false in E by reflexivity. cbn [bind] in E.
      destruct (pod p) as [od|e]; cbn [bind] in E; [|discriminate].
      destruct (Z.ltb_spec od 0) as [Hneg|Hod]; cbn [orb bind] in E;
        [discriminate|].
      cbn [seq PeepholeLSTM.loop mapM bind] in E. inversion E.
      split; [reflexivity|]. split; [reflexivity|]. exists hd, od. auto.
    + assert (HT : 1 <= S T) by lia.
      destruct (peephole_forward_full_raises_at phd pod p x_in Es HT) as [e He].
      rewrite He in E. discriminate.
    + unfold PeepholeLSTM.forward_full in E. rewrite Es in E. discriminate.
  - intros [Es [-> [hd [od [Eh [Eo [Hhd Hod]]]]]]].
    unfold PeepholeLSTM.forward_full. rewrite Es, Eh, Eo. cbn [bind].
    unfold zeros.
    destruct (Z.ltb_spec hd 0) as [Hneg|_]; [lia|].
    destruct (Z.ltb_spec od 0) as [Hneg|_]; [lia|].
    reflexivity.
Qed.

(** X17. [PeepholeLSTM.mse] raises a [TypeError] on every argument: it asks
    [LSTM.forward_batch], a function of three arguments, for the batch
    output with two. *)
Theorem peephole_mse_never_returns {A : Type} {N : Num A} {Ac : Activation A}
    (p : LSTMParams A) (x_batch : tensor A) (y_batch : list (matrix A)) :
  PeepholeLSTM.mse p x_batch y_batch = Raise TypeError.
Proof. reflexivity. Qed.

(** ** The model's forward pass *)

(** X18. [LSTMModel.forward] never returns: its layers are the tuples
    [init_params] built, which have neither an [output_dim] attribute nor a
    [forward_full] method.  On a model that [LSTMModel.init_params] returned
    and an input with at least one axis the error is the [AttributeError] of
    [layers[0].output_dim]. *)
Theorem model_forward_raises {A : Type}
    (params : @LSTMModelParams A) (x_in : tensor A) :
  raises (LSTMModel_forward params x_in)
  /\ (forall rng_normal i h o n t seed,
         LSTMModel_init_params rng_normal i h o n t seed = Ok params ->
         shape x_in <> [] ->
         LSTMModel_forward params x_in = Raise AttributeError).
Proof.
  split.
  - unfold LSTMModel_forward.
    destruct (nth_error (shape x_in) 0); [|exists IndexError; reflexivity].
    apply raises_bind_all. intros _. apply raises_bind.
    exists AttributeError. reflexivity.
  - intros rng_normal i h o n t seed E Hshape.
    destruct (model_init_params_ok_inv _ _ _ _ _ _ _ E)
      as [Hn [_ [layer [_ ->]]]].
    unfold LSTMModel_forward.
    destruct (shape x_in) as [|d ds]; [contradiction|]. cbn [nth_error layers].
    destruct (Z.to_nat n) as [|k] eqn:Ek; [lia|]. reflexivity.
Qed.

(** ** The carried state *)

(** X19. The scan keeps the carried state in shape: for parameters and
    inputs of the shapes of the architecture, from any hidden and cell state
    of shape [(hidden_dim, 1)] the scan of [LSTM.forward] returns, and the
    state it ends in has hidden and cell state of shape [(hidden_dim, 1)]
    again. *)
Theorem scan_keeps_state_shape {A : Type} {N : Num A} {Ac : Activation A}
    (id hd od : nat) (p : LSTMParams A) (xs : list (matrix A)) (Hm Cm : matrix A) :
  well_shaped id hd od p -> 0 < id -> 0 < hd -> 0 < od ->
  Forall (has_shape id 1) xs ->
  has_shape hd 1 Hm -> has_shape hd 1 Cm ->
  exists H' C' out_ls,
    scan LSTM.forward (p, Hm, Cm) xs = Ok ((p, H', C'), out_ls)
    /\ has_shape hd 1 H' /\ has_shape hd 1 C'.
Proof.
  intros Hp Hid Hhd Hod Hxs HH HC.
  exact (scan_forward_final_shape Hp Hid Hhd Hod Hxs HH HC).
Qed.

Lemma scan_keeps_state_shape_witness :
  exists H' C' out_ls,
    scan LSTM.forward (ex_params, col ex_h, col ex_c) [col ex_x; col ex_x]
    = Ok ((ex_params, H', C'), out_ls)
    /\ has_shape 2 1 H' /\ has_shape 2 1 C'.
Proof.
  apply (@scan_keeps_state_shape term _ _ 2 2 1); try lia; shape_solve.
Defined.

(** X20. The hidden dimension of the architecture record must be the one of
    the parameters: when [archi_params.hidden_dim] differs from the hidden
    dimension of well-shaped parameters, [LSTM.forward_full] raises on every
    sequence with at least one timestep (the zero state does not fit the
    recurrent matrices). *)
Theorem forward_full_hidden_dim_mismatch_raises
    {A : Type} {N : Num A} {Ac : Activation A}
    (id hd od hd' : nat) (archi : LSTMArchiParams) (p : LSTMParams A)
    (x : matrix A) (xs : list (matrix A)) (rest : list (list (matrix A))) :
  well_shaped id hd od p -> 0 < hd ->
  hidden_dim archi = Z.of_nat hd' -> hd' <> hd ->
  raises (LSTM.forward_full archi p ((x :: xs) :: rest)).
Proof.
  intros Hp Hhd Hdim Hne. exists TypeError.
  unfold LSTM.forward_full. rewrite Hdim, zeros_col. cbn [bind index0 scan].
  unfold LSTM.forward, LSTM.h_cur, LSTM.o_cur.
  rewrite (matmul_col_mismatch (repeat zero hd') (ws_uo Hp) Hhd);
    [reflexivity|].
  rewrite repeat_length. exact Hne.
Qed.

Lemma forward_full_hidden_dim_mismatch_raises_witness :
  raises (LSTM.forward_full (mkArchi (PRNGKey 0) 2 3 1) ex_params
            ((col ex_x :: []) :: [])).
Proof.
  apply (@forward_full_hidden_dim_mismatch_raises term _ _ 2 2 1 3);
    [shape_solve | lia | reflexivity | lia].
Defined.
